(** * The command-line driver of the TypeScript compiler ([src/tsc/tsc.ts])

    A shallow embedding of [tsc.ts]: the mode resolver [executeCommandLine],
    the build dispatcher [performBuild], the diagnostic reporter rebinding
    [updateReportDiagnostic] and the statistics table of [reportStatistics].

    The driver is effectful.  Its effects are modelled by a state-and-exit
    monad [M]: the state carries the module-level variable
    [reportDiagnostic], the files of the host, the [performance] module and
    the ordered log of everything the driver did to the outside world;
    [sys.exit] ends the run with an exit status.  Every function of the
    [ts] namespace that [tsc.ts] calls but does not define is a field of the
    record [Host].

    The compiler proper is outside this file.  A call into it is logged with
    what it is given, and its result is read from the host; the callbacks
    that [tsc.ts] hands over or installs on a host object
    ([updateCreateProgram], [updateWatchCompilationHost], the
    [afterProgramEmitAndDiagnostics] hooks) are run by the compiler, not by
    the driver, and what they would print is not part of the log.

    A string is a sequence of 8-bit characters; the driver only looks at the
    characters "-", "b", "u", "i", "l", "d" and at lengths. *)

From Equations Require Import Equations.
From stdpp Require Import base option list gmap strings pretty.
From Stdlib Require Import Ascii String QArith Qround Qabs.
Close Scope Q_scope.
Local Open Scope string_scope.

(** ** JavaScript strings *)

Module Js.

(** [CharacterCodes.minus] *)
Definition minus : nat := 45.

(** [s.charCodeAt(i)]; [None] stands for the [NaN] of an index out of range. *)
Definition charCodeAt (s : string) (i : nat) : option nat :=
  nat_of_ascii <$> String.get i s.

(** [s.slice(start)] for a non-negative [start]. *)
Fixpoint slice (s : string) (start : nat) {struct start} : string :=
  match start, s with
  | 0, _ => s
  | S n, String _ s' => slice s' n
  | S _, EmptyString => EmptyString
  end.

(** [toLowerCase] on one character.  Only the letters A-Z are mapped.  The
    driver compares the result with the words "build" and "b" only, and no
    string with a character outside A-Z and a-z lowercases to one of these
    words (the one letter outside ASCII whose lowercase starts with an ASCII
    letter, the dotted capital I, gives two code units). *)
Definition lowerChar (c : ascii) : ascii :=
  let n := nat_of_ascii c in
  if ((65 <=? n) && (n <=? 90))%nat then ascii_of_nat (n + 32)%nat else c.

Fixpoint toLowerCase (s : string) : string :=
  match s with
  | EmptyString => EmptyString
  | String c s' => String (lowerChar c) (toLowerCase s')
  end.

(** Truthiness of a value of type [string | undefined]. *)
Definition truthy (o : option string) : bool :=
  match o with
  | Some s => negb (String.eqb s "")
  | None => false
  end.

End Js.

(** ** JavaScript numbers

    Counts and durations are JavaScript numbers.  The driver only adds them,
    divides them, rounds them and prints them, so the development is
    parametric in an implementation of these operations. *)

Class JsNumber (num : Type) := {
  num_lit : Z -> num;                  (* an integer literal *)
  num_add : num -> num -> num;         (* [a + b] *)
  num_div : num -> num -> num;         (* [a / b] *)
  num_round : num -> num;              (* [Math.round(a)] *)
  num_geb : num -> num -> bool;        (* [a >= b] *)
  num_toString : num -> string;        (* [the string of a], as in ["" + a] *)
  num_toFixed : num -> nat -> string   (* [a.toFixed(digits)] *)
}.

(** ** [padLeft] and [padRight] *)

Equations? padLeft (s : string) (length : nat) : string
  by wf (length - String.length s) lt :=
  padLeft s length with decide (String.length s < length) => {
    | left _ => padLeft (" " +:+ s) length
    | right _ => s }.
Proof.
  assert (Hlen : ∀ a b : string,
    String.length (a +:+ b) = (String.length a + String.length b)%nat).
  { clear. intros a b. induction a as [|c a IH]; [done|].
    change (String c a +:+ b) with (String c (a +:+ b)).
    cbn [String.length]. by rewrite IH. }
  rewrite ?Hlen; cbn [String.length]; lia.
Qed.

Equations? padRight (s : string) (length : nat) : string
  by wf (length - String.length s) lt :=
  padRight s length with decide (String.length s < length) => {
    | left _ => padRight (s +:+ " ") length
    | right _ => s }.
Proof.
  assert (Hlen : ∀ a b : string,
    String.length (a +:+ b) = (String.length a + String.length b)%nat).
  { clear. intros a b. induction a as [|c a IH]; [done|].
    change (String c a +:+ b) with (String c (a +:+ b)).
    cbn [String.length]. by rewrite IH. }
  rewrite ?Hlen; cbn [String.length]; lia.
Qed.

(** ** Data of the driver *)

(** [ExitStatus] (declared in the compiler's types). *)
Inductive ExitStatus : Set :=
| Success
| DiagnosticsPresent_OutputsSkipped
| DiagnosticsPresent_OutputsGenerated.

(** The members of [Diagnostics] that [tsc.ts] names; every other message
    (those of the parsers) is an [Other_message]. *)
Inductive DiagnosticMessage : Set :=
| Option_build_must_be_the_first_command_line_argument
| Option_project_cannot_be_mixed_with_source_files_on_a_command_line
| Cannot_find_a_tsconfig_json_file_at_the_specified_directory_Colon_0
| The_specified_path_does_not_exist_Colon_0
| The_current_host_does_not_support_the_0_option
| A_tsconfig_json_file_is_already_defined_at_Colon_0
| Successfully_created_a_tsconfig_json_file
| Other_message (code : Z).

(** [createCompilerDiagnostic(message, ...args)] *)
Record Diagnostic : Set := createCompilerDiagnostic {
  messageText : DiagnosticMessage;
  messageArguments : list string
}.

(** The fields of [CompilerOptions] that the driver reads.  A boolean option
    is only ever tested for truthiness, so [undefined] is [false]; [pretty]
    is tested with [typeof], so it keeps its three values. *)
Module CompilerOptions.
Record t : Set := make {
  build : bool;
  locale : option string;
  init : bool;
  version : bool;
  help : bool;
  all : bool;
  project : option string;
  showConfig : bool;
  pretty : option bool;
  diagnostics : bool;
  extendedDiagnostics : bool;
  configFilePath : option string
}.
End CompilerOptions.

Module BuildOptions.
Record t : Set := make {
  help : bool;
  clean : bool;
  watch : bool;
  pretty : option bool
}.
End BuildOptions.

(** The union type [CompilerOptions | BuildOptions]. *)
Inductive Options : Set :=
| ofCompilerOptions (o : CompilerOptions.t)
| ofBuildOptions (o : BuildOptions.t).

Definition Options_pretty (options : Options) : option bool :=
  match options with
  | ofCompilerOptions o => CompilerOptions.pretty o
  | ofBuildOptions o => BuildOptions.pretty o
  end.

Record ProjectReference : Set := { path : string }.

Record ParsedCommandLine : Set := {
  options : CompilerOptions.t;
  fileNames : list string;
  projectReferences : option (list ProjectReference);
  errors : list Diagnostic
}.

(** The result of [parseBuildCommand]. *)
Module ParsedBuildCommand.
Record t : Set := make {
  buildOptions : BuildOptions.t;
  projects : list string;
  errors : list Diagnostic
}.
End ParsedBuildCommand.

(** An entry of [optionDeclarations]. *)
Module CommandLineOption.
Record t : Set := make {
  name : string;
  showInSimplifiedHelpView : bool
}.
End CommandLineOption.

Module Statistic.
Record t : Set := make {
  name : string;
  value : string
}.
End Statistic.

(** A diagnostic reporter, as made by [createDiagnosticReporter]: every call
    makes a fresh closure, told apart by [reporter_id]. *)
Record Reporter : Set := {
  reporter_id : nat;
  reporter_pretty : bool
}.

(** A source file; [getLineStarts(file)] is its array of line starts. *)
Record SourceFile : Set := {
  fileName : string;
  getLineStarts : list nat
}.

Section Driver.

Context {num : Type} `{!JsNumber num}.

Record RelationCacheSizes := {
  assignable : num;
  identity : num;
  subtype : num
}.

Record Program := {
  getCompilerOptions : CompilerOptions.t;
  getSourceFiles : list SourceFile;
  getNodeCount : num;
  getIdentifierCount : num;
  getSymbolCount : num;
  getTypeCount : num;
  getRelationCacheSizes : RelationCacheSizes
}.

(** The [performance] module: whether it is enabled and the measures it
    holds, in the order [forEachMeasure] visits them. *)
Record Performance := {
  enabled : bool;
  measures : list (string * num)
}.

(** Calls into the rest of the [ts] namespace, with what they are given. *)
Inductive Call :=
| parseCommandLine_ (args : list string)
| parseBuildCommand_ (args : list string)
| validateLocaleAndSetLanguage_ (locale : string)
| printVersion_
| printHelp_ (optionsList : list CommandLineOption.t) (syntaxPrefix : option string)
| findConfigFile_ (searchPath : string)
| parseConfigFileWithSystem_ (configFileName : string)
    (optionsToExtend : CompilerOptions.t) (reporter : Reporter)
| createCompilerHost_ (options : CompilerOptions.t)
| createProgram_ (rootNames : list string) (options : CompilerOptions.t)
    (references : option (list ProjectReference))
    (configFileParsingDiagnostics : option (list Diagnostic))
| emitFilesAndReportErrors_ (program : Program) (reporter : Reporter)
    (reportErrorSummary : bool)
| performIncrementalCompilation_ (config : ParsedCommandLine) (reporter : Reporter)
    (reportErrorSummary : bool)
| createWatchProgram_ (configFilePath : option string) (rootFiles : list string)
    (options : CompilerOptions.t) (reporter : Reporter) (prettyStatus : bool)
| createSolutionBuilder_ (withWatch : bool) (projects : list string)
    (buildOptions : BuildOptions.t) (reporter : Reporter) (prettyStatus : bool)
| buildAllProjects_
| cleanAllProjects_
| startWatching_.

(** What the driver does to the outside world, in order. *)
Inductive Event :=
| SysWrite (s : string)
| SysWriteFile (path data : string)
| SysFileExists (path : string)
| SysDirectoryExists (path : string)
| Reported (reporter : Reporter) (diagnostic : Diagnostic)
| Called (call : Call).

(** The host: [sys] and the functions of the [ts] namespace that [tsc.ts]
    uses and does not define.  An optional member of [sys] is a [bool] (is
    it there) or an [option] (what it returns when it is there).
    [sys.fileExists] and [sys.writeFile] work on the files of the state.

    [validateLocaleAndSetLanguage] gives the errors it pushes onto the array
    it is handed.  [parseConfigFileWithSystem] always gives a result: line
    134 asserts so with [!].  [findConfigFile] is handed [sys.fileExists];
    its own probes are not logged.  [recordMeasures] is what a call into the
    compiler does to the measures of the [performance] module. *)
Record Host := {
  sys_newLine : string;
  sys_writeOutputIsTTY : option bool;
  sys_getCurrentDirectory : string;
  sys_directoryExists : string -> bool;
  sys_getMemoryUsage : option num;
  sys_watchFile : bool;
  sys_watchDirectory : bool;
  sys_getModifiedTime : bool;
  sys_setModifiedTime : bool;
  sys_deleteFile : bool;
  parseCommandLine : list string -> ParsedCommandLine;
  parseBuildCommand : list string -> ParsedBuildCommand.t;
  validateLocaleAndSetLanguage : string -> list Diagnostic;
  normalizePath : string -> string;
  combinePaths : string -> string -> string;
  findConfigFile : string -> (string -> bool) -> option string;
  parseConfigFileWithSystem : string -> CompilerOptions.t -> ParsedCommandLine;
  (* [JSON.stringify(convertToTSConfig(result, configFileName, sys), null, 4)] *)
  JSON_stringify_convertToTSConfig : ParsedCommandLine -> string -> string;
  generateTSConfig : CompilerOptions.t -> list string -> string -> string;
  optionDeclarations : list CommandLineOption.t;
  buildOpts : list CommandLineOption.t;
  sort : list CommandLineOption.t ->
         (CommandLineOption.t -> CommandLineOption.t -> comparison) ->
         list CommandLineOption.t;
  compareStringsCaseInsensitive : string -> string -> comparison;
  isWatchSet : CompilerOptions.t -> bool;
  isIncrementalCompilation : CompilerOptions.t -> bool;
  getConfigFileParsingDiagnostics : ParsedCommandLine -> list Diagnostic;
  createProgram : list string -> CompilerOptions.t ->
                  option (list ProjectReference) -> option (list Diagnostic) ->
                  Program;
  emitFilesAndReportErrors : Program -> ExitStatus;
  ts_performIncrementalCompilation : ParsedCommandLine -> ExitStatus;
  buildAllProjects : list string -> BuildOptions.t -> ExitStatus;
  cleanAllProjects : list string -> BuildOptions.t -> ExitStatus;
  getErrorSummaryText : nat -> string -> string;
  recordMeasures : Call -> list (string * num) -> list (string * num)
}.

(** ** The state of a run and the monad of the driver *)

Record State := {
  reportDiagnostic : Reporter;       (* the module-level [let reportDiagnostic] *)
  reportersCreated : nat;            (* how many reporters were made so far *)
  files : gmap string string;        (* the files of the host, by path *)
  performance : Performance;
  output : list Event
}.

Inductive Outcome (A : Type) :=
| Returned (a : A) (st : State)
| Exited (status : ExitStatus) (st : State).

Arguments Returned {A} a st.
Arguments Exited {A} status st.

Definition M (A : Type) : Type := State -> Outcome A.

Definition ret {A} (a : A) : M A := fun st => Returned a st.

Definition bind {A B} (m : M A) (k : A -> M B) : M B :=
  fun st =>
    match m st with
    | Returned a st' => k a st'
    | Exited status st' => Exited status st'
    end.

(** [sys.exit(status)] ends the process. *)
Definition sys_exit {A} (status : ExitStatus) : M A :=
  fun st => Exited status st.

Definition finalState {A} (o : Outcome A) : State :=
  match o with
  | Returned _ st => st
  | Exited _ st => st
  end.

Definition exitStatus {A} (o : Outcome A) : option ExitStatus :=
  match o with
  | Returned _ _ => None
  | Exited status _ => Some status
  end.

End Driver.

Arguments Program : clear implicits.
Arguments Performance : clear implicits.
Arguments Call : clear implicits.
Arguments Event : clear implicits.
Arguments Host : clear implicits.
Arguments State : clear implicits.
Arguments Outcome : clear implicits.
Arguments M : clear implicits.
Arguments RelationCacheSizes : clear implicits.
Arguments Returned {num A} a st.
Arguments Exited {num A} status st.

Declare Scope driver_scope.
Delimit Scope driver_scope with driver.
Notation "x ← y ; z" := (bind y (fun x => z))
  (at level 20, y at level 100, z at level 200, only parsing) : driver_scope.
Notation "x ;; z" := (bind x (fun _ => z))
  (at level 100, z at level 200, only parsing, right associativity) : driver_scope.

(** ** The functions of [tsc.ts] *)

Section Tsc.

Context {num : Type} `{!JsNumber num}.
Variable host : Host num.

Local Open Scope driver_scope.
Local Abbreviation M := (M num).

(** *** Primitive effects *)

(** The state with more events at the end of its log. *)
Definition appendOutput (st : State num) (es : list (Event num)) : State num :=
  {| reportDiagnostic := reportDiagnostic st;
     reportersCreated := reportersCreated st;
     files := files st;
     performance := performance st;
     output := output st ++ es |}.

Definition log (e : Event num) : M unit :=
  fun st => Returned tt (appendOutput st [e]).

(** A call whose result the driver reads from the host. *)
Definition call (c : Call num) : M unit := log (Called c).

(** A call into the compiler proper, which records measures as it runs. *)
Definition engineCall (c : Call num) : M unit :=
  fun st =>
    Returned tt {| reportDiagnostic := reportDiagnostic st;
                   reportersCreated := reportersCreated st;
                   files := files st;
                   performance :=
                     {| enabled := enabled (performance st);
                        measures := recordMeasures host c (measures (performance st)) |};
                   output := output st ++ [Called c] |}.

Definition sys_write (s : string) : M unit := log (SysWrite s).

Definition fileExistsIn (fs : gmap string string) (path : string) : bool :=
  bool_decide (is_Some (fs !! path)).

Definition sys_fileExists (path : string) : M bool :=
  fun st => bind (log (SysFileExists path)) (fun _ => ret (fileExistsIn (files st) path)) st.

Definition sys_directoryExists_ (path : string) : M bool :=
  log (SysDirectoryExists path) ;; ret (sys_directoryExists host path).

Definition sys_writeFile (path data : string) : M unit :=
  fun st =>
    Returned tt {| reportDiagnostic := reportDiagnostic st;
                   reportersCreated := reportersCreated st;
                   files := <[path := data]> (files st);
                   performance := performance st;
                   output := output st ++ [SysWriteFile path data] |}.

Definition set_enabled (b : bool) : M unit :=
  fun st =>
    Returned tt {| reportDiagnostic := reportDiagnostic st;
                   reportersCreated := reportersCreated st;
                   files := files st;
                   performance := {| enabled := b; measures := measures (performance st) |};
                   output := output st |}.

(** [performance.enable()] and [performance.disable()] *)
Definition performance_enable : M unit := set_enabled true.
Definition performance_disable : M unit := set_enabled false.

(** [performance.getDuration(name)]: the measure, or 0 when there is none. *)
Fixpoint lookupMeasure (ms : list (string * num)) (name : string) : num :=
  match ms with
  | [] => num_lit 0
  | (n, d) :: ms' => if String.eqb n name then d else lookupMeasure ms' name
  end.

Definition performance_getDuration (perf : Performance num) (name : string) : num :=
  lookupMeasure (measures perf) name.

(** [createDiagnosticReporter(sys, pretty?)] *)
Definition createDiagnosticReporter (pretty : option bool) : M Reporter :=
  fun st =>
    Returned {| reporter_id := reportersCreated st;
                reporter_pretty := default false pretty |}
             {| reportDiagnostic := reportDiagnostic st;
                reportersCreated := S (reportersCreated st);
                files := files st;
                performance := performance st;
                output := output st |}.

(** The assignment [reportDiagnostic = r]. *)
Definition set_reportDiagnostic (r : Reporter) : M unit :=
  fun st =>
    Returned tt {| reportDiagnostic := r;
                   reportersCreated := reportersCreated st;
                   files := files st;
                   performance := performance st;
                   output := output st |}.

Definition get_reportDiagnostic : M Reporter :=
  fun st => Returned (reportDiagnostic st) st.

(** The call [reportDiagnostic(d)], through whichever reporter the variable
    holds at that moment. *)
Definition reportDiagnostic_ (d : Diagnostic) : M unit :=
  r ← get_reportDiagnostic; log (Reported r d).

(** [xs.forEach(f)] *)
Fixpoint forEach {A} (xs : list A) (f : A -> M unit) : M unit :=
  match xs with
  | [] => ret tt
  | x :: xs' => f x ;; forEach xs' f
  end.

(** The state when the module has been loaded: line 15,
    [let reportDiagnostic = createDiagnosticReporter(sys)]. *)
Definition initialState (fs : gmap string string) (ms : list (string * num)) : State num :=
  {| reportDiagnostic := {| reporter_id := 0; reporter_pretty := false |};
     reportersCreated := 1;
     files := fs;
     performance := {| enabled := false; measures := ms |};
     output := [] |}.

(** *** Lines 7-13 *)
Definition countLines (program : Program num) : num :=
  fold_left (fun count file => num_add count (num_lit (Z.of_nat (List.length (getLineStarts file)))))
            (getSourceFiles program) (num_lit 0).

(** *** Lines 22-31 *)
Definition defaultIsPretty : bool :=
  match sys_writeOutputIsTTY host with
  | Some isTTY => isTTY
  | None => false
  end.

(** The argument is an [option]: the function tests [!options] first. *)
Definition shouldBePretty (options : option Options) : bool :=
  match options with
  | None => defaultIsPretty
  | Some o =>
      match Options_pretty o with
      | None => defaultIsPretty
      | Some pretty => pretty
      end
  end.

(** *** Lines 16-20 *)
Definition updateReportDiagnostic (options : Options) : M unit :=
  if shouldBePretty (Some options) then
    r ← createDiagnosticReporter (Some true);
    set_reportDiagnostic r
  else ret tt.

(** *** Lines 48-53 *)
Definition getOptionsForHelp (commandLine : ParsedCommandLine) : list CommandLineOption.t :=
  if CompilerOptions.all (options commandLine) then
    sort host (optionDeclarations host)
      (fun a b => compareStringsCaseInsensitive host
                    (CommandLineOption.name a) (CommandLineOption.name b))
  else
    filter (fun v => CommandLineOption.showInSimplifiedHelpView v = true)
           (optionDeclarations host).

Definition printVersion : M unit := call printVersion_.

Definition printHelp (optionsList : list CommandLineOption.t)
    (syntaxPrefix : option string) : M unit :=
  call (printHelp_ optionsList syntaxPrefix).

(** *** Lines 313-317 *)
Definition enableStatistics (compilerOptions : CompilerOptions.t) : M unit :=
  if CompilerOptions.diagnostics compilerOptions
     || CompilerOptions.extendedDiagnostics compilerOptions
  then performance_enable
  else ret tt.

(** *** Lines 319-394: [reportStatistics]

    The local array [statistics] is threaded through the three local
    functions that push onto it. *)

(** Lines 383-385 *)
Definition reportStatisticalValue (statistics : list Statistic.t)
    (name value : string) : list Statistic.t :=
  statistics ++ [Statistic.make name value].

(** Lines 387-389 *)
Definition reportCountStatistic (statistics : list Statistic.t)
    (name : string) (count : num) : list Statistic.t :=
  reportStatisticalValue statistics name ("" +:+ num_toString count).

(** Lines 391-393 *)
Definition reportTimeStatistic (statistics : list Statistic.t)
    (name : string) (time : num) : list Statistic.t :=
  reportStatisticalValue statistics name
    (num_toFixed (num_div time (num_lit 1000)) 2 +:+ "s").

(** Lines 366-376: the first loop of the local [reportStatistics()]. *)
Definition statisticSizes (statistics : list Statistic.t) : nat * nat :=
  fold_left
    (fun '(nameSize, valueSize) s =>
       (if (nameSize <? String.length (Statistic.name s))%nat
        then String.length (Statistic.name s) else nameSize,
        if (valueSize <? String.length (Statistic.value s))%nat
        then String.length (Statistic.value s) else valueSize))
    statistics (0, 0)%nat.

(** Line 379: the text written for one statistic. *)
Definition statisticLine (nameSize valueSize : nat) (s : Statistic.t) : string :=
  (padRight (Statistic.name s +:+ ":") (nameSize + 2)
   +:+ padLeft (Statistic.value s) valueSize)
  +:+ sys_newLine host.

(** Lines 365-381: the local [reportStatistics()]. *)
Definition reportStatistics_local (statistics : list Statistic.t) : M unit :=
  let '(nameSize, valueSize) := statisticSizes statistics in
  forEach statistics (fun s => sys_write (statisticLine nameSize valueSize s)).

(** Lines 323-359: the array [statistics] when the local
    [reportStatistics()] is called. *)
Definition collectStatistics (program : Program num) (perf : Performance num)
    : list Statistic.t :=
  let compilerOptions := getCompilerOptions program in
  let statistics := [] in
  let memoryUsed :=
    match sys_getMemoryUsage host with
    | Some used => used
    | None => num_lit (-1)
    end in
  let statistics := reportCountStatistic statistics "Files"
                      (num_lit (Z.of_nat (List.length (getSourceFiles program)))) in
  let statistics := reportCountStatistic statistics "Lines" (countLines program) in
  let statistics := reportCountStatistic statistics "Nodes" (getNodeCount program) in
  let statistics := reportCountStatistic statistics "Identifiers" (getIdentifierCount program) in
  let statistics := reportCountStatistic statistics "Symbols" (getSymbolCount program) in
  let statistics := reportCountStatistic statistics "Types" (getTypeCount program) in
  let statistics :=
    if num_geb memoryUsed (num_lit 0) then
      reportStatisticalValue statistics "Memory used"
        (num_toString (num_round (num_div memoryUsed (num_lit 1000))) +:+ "K")
    else statistics in
  let programTime := performance_getDuration perf "Program" in
  let bindTime := performance_getDuration perf "Bind" in
  let checkTime := performance_getDuration perf "Check" in
  let emitTime := performance_getDuration perf "Emit" in
  let statistics :=
    if CompilerOptions.extendedDiagnostics compilerOptions then
      let caches := getRelationCacheSizes program in
      let statistics := reportCountStatistic statistics "Assignability cache size" (assignable caches) in
      let statistics := reportCountStatistic statistics "Identity cache size" (identity caches) in
      let statistics := reportCountStatistic statistics "Subtype cache size" (subtype caches) in
      fold_left (fun statistics '(name, duration) =>
                   reportTimeStatistic statistics (name +:+ " time") duration)
                (measures perf) statistics
    else
      let statistics := reportTimeStatistic statistics "I/O read" (performance_getDuration perf "I/O Read") in
      let statistics := reportTimeStatistic statistics "I/O write" (performance_getDuration perf "I/O Write") in
      let statistics := reportTimeStatistic statistics "Parse time" programTime in
      let statistics := reportTimeStatistic statistics "Bind time" bindTime in
      let statistics := reportTimeStatistic statistics "Check time" checkTime in
      reportTimeStatistic statistics "Emit time" emitTime in
  reportTimeStatistic statistics "Total time"
    (num_add (num_add (num_add programTime bindTime) checkTime) emitTime).

Definition reportStatistics (program : Program num) : M unit :=
  fun st =>
    let compilerOptions := getCompilerOptions program in
    if CompilerOptions.diagnostics compilerOptions
       || CompilerOptions.extendedDiagnostics compilerOptions
    then
      (reportStatistics_local (collectStatistics program (performance st)) ;;
       performance_disable) st
    else ret tt st.

(** *** Lines 396-408 *)
Definition writeConfigFile (options : CompilerOptions.t) (fileNames : list string) : M unit :=
  let currentDirectory := sys_getCurrentDirectory host in
  let file := normalizePath host (combinePaths host currentDirectory "tsconfig.json") in
  fileExists ← sys_fileExists file;
  if fileExists then
    reportDiagnostic_ (createCompilerDiagnostic A_tsconfig_json_file_is_already_defined_at_Colon_0 [file])
  else
    sys_writeFile file (generateTSConfig host options fileNames (sys_newLine host)) ;;
    reportDiagnostic_ (createCompilerDiagnostic Successfully_created_a_tsconfig_json_file []).

(** *** Lines 177-182 *)
Definition reportWatchModeWithoutSysSupport : M unit :=
  if negb (sys_watchFile host) || negb (sys_watchDirectory host) then
    reportDiagnostic_ (createCompilerDiagnostic The_current_host_does_not_support_the_0_option ["--watch"]) ;;
    sys_exit DiagnosticsPresent_OutputsSkipped
  else ret tt.

(** *** Lines 231-235: the summary writer, when there is one. *)
Definition createReportErrorSummary (options : Options) : option (nat -> M unit) :=
  if shouldBePretty (Some options) then
    Some (fun errorCount => sys_write (getErrorSummaryText host errorCount (sys_newLine host)))
  else None.

(** *** Lines 237-260.  The callbacks handed to the compiler (the reporter,
    the summary writer) are run by the compiler, outside this file: the call
    is logged with the reporter it was given. *)
Definition performCompilation (rootNames : list string)
    (references : option (list ProjectReference)) (options : CompilerOptions.t)
    (configFileParsingDiagnostics : option (list Diagnostic)) : M unit :=
  call (createCompilerHost_ options) ;;
  enableStatistics options ;;
  engineCall (createProgram_ rootNames options references configFileParsingDiagnostics) ;;
  let program := createProgram host rootNames options references configFileParsingDiagnostics in
  reporter ← get_reportDiagnostic;
  engineCall (emitFilesAndReportErrors_ program reporter
                (bool_decide (is_Some (createReportErrorSummary (ofCompilerOptions options))))) ;;
  let exitStatus := emitFilesAndReportErrors host program in
  reportStatistics program ;;
  sys_exit exitStatus.

(** *** Lines 262-274 *)
Definition performIncrementalCompilation (config : ParsedCommandLine) : M unit :=
  enableStatistics (options config) ;;
  reporter ← get_reportDiagnostic;
  engineCall (performIncrementalCompilation_ config reporter
                (bool_decide (is_Some (createReportErrorSummary (ofCompilerOptions (options config)))))) ;;
  sys_exit (ts_performIncrementalCompilation host config).

(** *** Lines 296-311 *)
Definition createWatchStatusReporter (options : Options) : bool :=
  shouldBePretty (Some options).

Definition createWatchOfConfigFile (configParseResult : ParsedCommandLine)
    (optionsToExtend : CompilerOptions.t) : M unit :=
  reporter ← get_reportDiagnostic;
  engineCall (createWatchProgram_
                (CompilerOptions.configFilePath (options configParseResult)) []
                optionsToExtend reporter
                (createWatchStatusReporter (ofCompilerOptions (options configParseResult)))).

Definition createWatchOfFilesAndCompilerOptions (rootFiles : list string)
    (options : CompilerOptions.t) : M unit :=
  reporter ← get_reportDiagnostic;
  engineCall (createWatchProgram_ None rootFiles options reporter
                (createWatchStatusReporter (ofCompilerOptions options))).

(** *** Lines 184-229 *)
Definition performBuild (args : list string) : M unit :=
  call (parseBuildCommand_ args) ;;
  let buildOptions := ParsedBuildCommand.buildOptions (parseBuildCommand host args) in
  let projects := ParsedBuildCommand.projects (parseBuildCommand host args) in
  let errors := ParsedBuildCommand.errors (parseBuildCommand host args) in
  updateReportDiagnostic (ofBuildOptions buildOptions) ;;
  if (0 <? List.length errors)%nat then
    forEach errors reportDiagnostic_ ;;
    sys_exit DiagnosticsPresent_OutputsSkipped
  else if BuildOptions.help buildOptions then
    printVersion ;;
    printHelp (buildOpts host) (Some "--build ") ;;
    sys_exit Success
  else if (List.length projects =? 0)%nat then
    printVersion ;;
    printHelp (buildOpts host) (Some "--build ") ;;
    sys_exit Success
  else if negb (sys_getModifiedTime host) || negb (sys_setModifiedTime host)
          || (BuildOptions.clean buildOptions && negb (sys_deleteFile host)) then
    reportDiagnostic_ (createCompilerDiagnostic The_current_host_does_not_support_the_0_option ["--build"]) ;;
    sys_exit DiagnosticsPresent_OutputsSkipped
  else
    (if BuildOptions.watch buildOptions then reportWatchModeWithoutSysSupport else ret tt) ;;
    if BuildOptions.watch buildOptions then
      reporter ← get_reportDiagnostic;
      engineCall (createSolutionBuilder_ true projects buildOptions reporter
                    (shouldBePretty (Some (ofBuildOptions buildOptions)))) ;;
      engineCall buildAllProjects_ ;;
      engineCall startWatching_
    else
      reporter ← get_reportDiagnostic;
      engineCall (createSolutionBuilder_ false projects buildOptions reporter
                    (shouldBePretty (Some (ofBuildOptions buildOptions)))) ;;
      if BuildOptions.clean buildOptions then
        engineCall cleanAllProjects_ ;;
        sys_exit (cleanAllProjects host projects buildOptions)
      else
        engineCall buildAllProjects_ ;;
        sys_exit (buildAllProjects host projects buildOptions).

(** *** Lines 55-175 *)

(** The test of lines 56-58 on the first argument. *)
Definition firstArgumentIsBuild (args : list string) : bool :=
  match args with
  | [] => false
  | arg0 :: _ =>
      bool_decide (Js.charCodeAt arg0 0 = Some Js.minus) &&
      (let firstOption :=
         Js.toLowerCase
           (Js.slice arg0
              (if bool_decide (Js.charCodeAt arg0 1 = Some Js.minus) then 2 else 1)%nat) in
       String.eqb firstOption "build" || String.eqb firstOption "b")
  end.

(** [commandLine.errors] after [validateLocaleAndSetLanguage] has pushed its
    own errors onto that array. *)
Definition pushErrors (commandLine : ParsedCommandLine) (more : list Diagnostic)
    : ParsedCommandLine :=
  {| options := options commandLine;
     fileNames := fileNames commandLine;
     projectReferences := projectReferences commandLine;
     errors := errors commandLine ++ more |}.

(** Lines 99-124 of [executeCommandLine]: the statement that sets
    [configFileName] (declared [undefined] at line 71), or ends the run. *)
Definition resolveConfigFileName (commandLine : ParsedCommandLine) : M (option string) :=
  if Js.truthy (CompilerOptions.project (options commandLine)) then
    let project := default "" (CompilerOptions.project (options commandLine)) in
    if negb (List.length (fileNames commandLine) =? 0)%nat then
      reportDiagnostic_ (createCompilerDiagnostic Option_project_cannot_be_mixed_with_source_files_on_a_command_line []) ;;
      sys_exit DiagnosticsPresent_OutputsSkipped
    else
      let fileOrDirectory := normalizePath host project in
      isDirectory ←
        (if String.eqb fileOrDirectory "" then ret true
         else sys_directoryExists_ fileOrDirectory);
      if isDirectory then
        let configFileName := combinePaths host fileOrDirectory "tsconfig.json" in
        fileExists ← sys_fileExists configFileName;
        if negb fileExists then
          reportDiagnostic_ (createCompilerDiagnostic Cannot_find_a_tsconfig_json_file_at_the_specified_directory_Colon_0 [project]) ;;
          sys_exit DiagnosticsPresent_OutputsSkipped
        else ret (Some configFileName)
      else
        let configFileName := fileOrDirectory in
        fileExists ← sys_fileExists configFileName;
        if negb fileExists then
          reportDiagnostic_ (createCompilerDiagnostic The_specified_path_does_not_exist_Colon_0 [project]) ;;
          sys_exit DiagnosticsPresent_OutputsSkipped
        else ret (Some configFileName)
  else if (List.length (fileNames commandLine) =? 0)%nat then
    let searchPath := normalizePath host (sys_getCurrentDirectory host) in
    call (findConfigFile_ searchPath) ;;
    (fun st => ret (findConfigFile host searchPath (fileExistsIn (files st))) st)
  else ret None.

(** Lines 126-175 of [executeCommandLine]: what runs once [configFileName]
    is settled. *)
Definition executeCommandLine_withConfigFileName (commandLine : ParsedCommandLine)
    (configFileName : option string) : M unit :=
  if (List.length (fileNames commandLine) =? 0)%nat && negb (Js.truthy configFileName) then
    printVersion ;;
    printHelp (getOptionsForHelp commandLine) None ;;
    sys_exit Success
  else
  let commandLineOptions := options commandLine in
  if Js.truthy configFileName then
    let configFileName := default "" configFileName in
    reporter ← get_reportDiagnostic;
    call (parseConfigFileWithSystem_ configFileName commandLineOptions reporter) ;;
    let configParseResult := parseConfigFileWithSystem host configFileName commandLineOptions in
    if CompilerOptions.showConfig commandLineOptions then
      if negb (List.length (errors configParseResult) =? 0)%nat then
        updateReportDiagnostic (ofCompilerOptions (options configParseResult)) ;;
        forEach (errors configParseResult) reportDiagnostic_ ;;
        sys_exit DiagnosticsPresent_OutputsSkipped
      else
        sys_write (JSON_stringify_convertToTSConfig host configParseResult configFileName
                   +:+ sys_newLine host) ;;
        sys_exit Success
    else
      updateReportDiagnostic (ofCompilerOptions (options configParseResult)) ;;
      if isWatchSet host (options configParseResult) then
        reportWatchModeWithoutSysSupport ;;
        createWatchOfConfigFile configParseResult commandLineOptions
      else if isIncrementalCompilation host (options configParseResult) then
        performIncrementalCompilation configParseResult
      else
        performCompilation (fileNames configParseResult)
          (projectReferences configParseResult) (options configParseResult)
          (Some (getConfigFileParsingDiagnostics host configParseResult))
  else
    if CompilerOptions.showConfig commandLineOptions then
      sys_write (JSON_stringify_convertToTSConfig host commandLine
                   (combinePaths host (sys_getCurrentDirectory host) "tsconfig.json")
                 +:+ sys_newLine host) ;;
      sys_exit Success
    else
      updateReportDiagnostic (ofCompilerOptions commandLineOptions) ;;
      if isWatchSet host commandLineOptions then
        reportWatchModeWithoutSysSupport ;;
        createWatchOfFilesAndCompilerOptions (fileNames commandLine) commandLineOptions
      else if isIncrementalCompilation host commandLineOptions then
        performIncrementalCompilation commandLine
      else
        performCompilation (fileNames commandLine) None commandLineOptions None.

(** Lines 76-175 of [executeCommandLine]: what runs once the locale has been
    looked at. *)
Definition executeCommandLine_afterLocale (commandLine : ParsedCommandLine) : M unit :=
  if (0 <? List.length (errors commandLine))%nat then
    forEach (errors commandLine) reportDiagnostic_ ;;
    sys_exit DiagnosticsPresent_OutputsSkipped
  else if CompilerOptions.init (options commandLine) then
    writeConfigFile (options commandLine) (fileNames commandLine) ;;
    sys_exit Success
  else if CompilerOptions.version (options commandLine) then
    printVersion ;;
    sys_exit Success
  else if CompilerOptions.help (options commandLine)
          || CompilerOptions.all (options commandLine) then
    printVersion ;;
    printHelp (getOptionsForHelp commandLine) None ;;
    sys_exit Success
  else
  configFileName ← resolveConfigFileName commandLine;
  executeCommandLine_withConfigFileName commandLine configFileName.

(** Lines 55-74, then the rest. *)
Definition executeCommandLine (args : list string) : M unit :=
  if firstArgumentIsBuild args then performBuild (drop 1 args) else
  call (parseCommandLine_ args) ;;
  let commandLine := parseCommandLine host args in
  if CompilerOptions.build (options commandLine) then
    reportDiagnostic_ (createCompilerDiagnostic Option_build_must_be_the_first_command_line_argument []) ;;
    sys_exit DiagnosticsPresent_OutputsSkipped
  else
  commandLine ←
    (if Js.truthy (CompilerOptions.locale (options commandLine)) then
       let locale := default "" (CompilerOptions.locale (options commandLine)) in
       call (validateLocaleAndSetLanguage_ locale) ;;
       ret (pushErrors commandLine (validateLocaleAndSetLanguage host locale))
     else ret commandLine);
  executeCommandLine_afterLocale commandLine.

End Tsc.

(** ** Names used in the statements *)

Section Statements.

Context {num : Type} `{!JsNumber num}.
Variable host : Host num.

(** [commandLine] as it stands after lines 72-74. *)
Definition commandLineAfterLocale (args : list string) : ParsedCommandLine :=
  let commandLine := parseCommandLine host args in
  if Js.truthy (CompilerOptions.locale (options commandLine)) then
    pushErrors commandLine
      (validateLocaleAndSetLanguage host
         (default "" (CompilerOptions.locale (options commandLine))))
  else commandLine.

(** What lines 63-74 log on the way to the error check of line 78. *)
Definition preamble (args : list string) : list (Event num) :=
  let commandLine := parseCommandLine host args in
  Called (parseCommandLine_ args) ::
  (if Js.truthy (CompilerOptions.locale (options commandLine)) then
     [Called (validateLocaleAndSetLanguage_
                (default "" (CompilerOptions.locale (options commandLine))))]
   else []).

(** The run gets past the error check of line 78: the first argument is not
    the build flag, [build] is not set, and there is no error. *)
Definition passesErrorCheck (args : list string) : bool :=
  negb (firstArgumentIsBuild args)
  && negb (CompilerOptions.build (options (parseCommandLine host args)))
  && (List.length (errors (commandLineAfterLocale args)) =? 0)%nat.

(** The run gets to line 99: it also is none of init, version, help, all. *)
Definition reachesConfigResolution (args : list string) : bool :=
  passesErrorCheck args
  && negb (CompilerOptions.init (options (parseCommandLine host args)))
  && negb (CompilerOptions.version (options (parseCommandLine host args)))
  && negb (CompilerOptions.help (options (parseCommandLine host args)))
  && negb (CompilerOptions.all (options (parseCommandLine host args))).

(** Events that only the mode resolver (from line 63 on) gives rise to. *)
Definition modeResolverOnly (e : Event num) : bool :=
  match e with
  | Called (parseCommandLine_ _)
  | Called (validateLocaleAndSetLanguage_ _)
  | Called (findConfigFile_ _)
  | Called (parseConfigFileWithSystem_ _ _ _)
  | Called (createCompilerHost_ _)
  | Called (createProgram_ _ _ _ _)
  | Called (emitFilesAndReportErrors_ _ _ _)
  | Called (performIncrementalCompilation_ _ _ _)
  | Called (createWatchProgram_ _ _ _ _ _)
  | SysWrite _ | SysWriteFile _ _ | SysFileExists _ | SysDirectoryExists _ => true
  | _ => false
  end.

(** The reporter and the counter after [updateReportDiagnostic(options)]. *)
Definition reboundReporter (options : Options) (st : State num) : Reporter :=
  if shouldBePretty host (Some options)
  then {| reporter_id := reportersCreated st; reporter_pretty := true |}
  else reportDiagnostic st.

Definition rebound (options : Options) (st : State num) : State num :=
  {| reportDiagnostic := reboundReporter options st;
     reportersCreated := if shouldBePretty host (Some options)
                         then S (reportersCreated st) else reportersCreated st;
     files := files st;
     performance := performance st;
     output := output st |}.

(** Whatever state it starts in, [m] only adds to the log, and only events
    that satisfy [P]. *)
Definition logsOnly {A} (P : Event num -> Prop) (m : M num A) : Prop :=
  ∀ st, ∃ new, output (finalState (m st)) = (output st ++ new)%list ∧ Forall P new.

(** The text of a time, as line 392 prints it. *)
Definition seconds (time : num) : string :=
  num_toFixed (num_div time (num_lit 1000)) 2 +:+ "s".

(** The sum of line 359. *)
Definition totalTime (perf : Performance num) : num :=
  num_add (num_add (num_add (performance_getDuration perf "Program")
                            (performance_getDuration perf "Bind"))
                   (performance_getDuration perf "Check"))
          (performance_getDuration perf "Emit").

End Statements.

(** [n] space characters. *)
Fixpoint spaces (n : nat) : string :=
  match n with
  | O => ""
  | S n' => " " +:+ spaces n'
  end.

(** ** An exact implementation of the numbers

    Rational numbers with exact arithmetic; they agree with the doubles of
    JavaScript wherever those are exact.  [num_toString] prints an integer
    as JavaScript does, which is all the driver asks of it. *)

Module ExactNumber.

Fixpoint zeros (n : nat) : string :=
  match n with
  | O => ""
  | S n' => "0" +:+ zeros n'
  end.

Definition round (q : Q) : Q := inject_Z (Qfloor (Qplus q (1 # 2))).

Definition toString (q : Q) : string :=
  let r := Qred q in
  if Pos.eqb (Qden r) 1 then pretty (Qnum r)
  else pretty (Qnum r) +:+ "/" +:+ pretty (Zpos (Qden r)).

(** [x.toFixed(digits)]: the integer [n] nearest to [x * 10^digits], the
    larger one at a tie, printed with [digits] digits after the point. *)
Definition toFixed (q : Q) (digits : nat) : string :=
  let scale := (10 ^ Z.of_nat digits)%Z in
  let n := Qfloor (Qplus (Qmult (Qabs q) (inject_Z scale)) (1 # 2)) in
  let whole := pretty (n / scale)%Z in
  let part := pretty (n mod scale)%Z in
  (if Qle_bool 0 q then "" else "-") +:+ whole +:+
  (match digits with
   | O => ""
   | S _ => "." +:+ zeros (digits - String.length part) +:+ part
   end).

#[global] Instance number : JsNumber Q := {|
  num_lit := inject_Z;
  num_add := Qplus;
  num_div := Qdiv;
  num_round := round;
  num_geb := fun a b => Qle_bool b a;
  num_toString := toString;
  num_toFixed := toFixed
|}.

End ExactNumber.

(** ** A small host on which the driver runs

    A host with a toy argument parser and a toy file system, used to run
    the functions above on concrete command lines. *)

Module Example.

Definition hasFlag (flag : string) (args : list string) : bool :=
  existsb (String.eqb flag) args.

(** The argument that follows [flag] or its short form. *)
Fixpoint valueOf (flag short : string) (args : list string) : option string :=
  match args with
  | a :: rest =>
      if String.eqb a flag || String.eqb a short then head rest
      else valueOf flag short rest
  | [] => None
  end.

(** The arguments that are neither flags nor the value of a flag; [skip]
    says that the argument at hand is the value of the flag before it. *)
Fixpoint sourceFilesFrom (skip : bool) (args : list string) : list string :=
  match args with
  | a :: rest =>
      if skip then sourceFilesFrom false rest
      else if String.eqb a "--project" || String.eqb a "-p" || String.eqb a "--locale"
      then sourceFilesFrom true rest
      else if String.prefix "-" a then sourceFilesFrom false rest
      else a :: sourceFilesFrom false rest
  | [] => []
  end.

Definition sourceFiles (args : list string) : list string :=
  sourceFilesFrom false args.

Definition parseOptions (args : list string) : CompilerOptions.t :=
  {| CompilerOptions.build := hasFlag "--build" args || hasFlag "-b" args;
     CompilerOptions.locale := valueOf "--locale" "--locale" args;
     CompilerOptions.init := hasFlag "--init" args;
     CompilerOptions.version := hasFlag "--version" args;
     CompilerOptions.help := hasFlag "--help" args;
     CompilerOptions.all := hasFlag "--all" args;
     CompilerOptions.project := valueOf "--project" "-p" args;
     CompilerOptions.showConfig := hasFlag "--showConfig" args;
     CompilerOptions.pretty :=
       if hasFlag "--pretty" args then Some true else None;
     CompilerOptions.diagnostics := hasFlag "--diagnostics" args;
     CompilerOptions.extendedDiagnostics := hasFlag "--extendedDiagnostics" args;
     CompilerOptions.configFilePath := None |}.

Definition parse (args : list string) : ParsedCommandLine :=
  {| options := parseOptions args;
     fileNames := sourceFiles args;
     projectReferences := None;
     errors := if hasFlag "--bogus" args then [createCompilerDiagnostic (Other_message 5023%Z) ["bogus"]] else [] |}.

Definition parseBuild (args : list string) : ParsedBuildCommand.t :=
  {| ParsedBuildCommand.buildOptions :=
       {| BuildOptions.help := hasFlag "--help" args;
          BuildOptions.clean := hasFlag "--clean" args;
          BuildOptions.watch := hasFlag "--watch" args;
          BuildOptions.pretty := if hasFlag "--pretty" args then Some true else None |};
     ParsedBuildCommand.projects := sourceFiles args;
     ParsedBuildCommand.errors :=
       if hasFlag "--bogus" args then [createCompilerDiagnostic (Other_message 5072%Z) ["bogus"]] else [] |}.

Definition combine (a b : string) : string :=
  if String.eqb a "" then b else a +:+ "/" +:+ b.

(** The configuration read from a file: the command line's options, one
    root file, and an error when the file is the one called "broken". *)
Definition parseConfig (configFileName : string) (optionsToExtend : CompilerOptions.t)
    : ParsedCommandLine :=
  {| options := optionsToExtend;
     fileNames := ["main.ts"];
     projectReferences := None;
     errors := if String.eqb configFileName "broken/tsconfig.json"
               then [createCompilerDiagnostic (Other_message 5024%Z) []] else [] |}.

Definition program (rootNames : list string) (options : CompilerOptions.t) : Program Q :=
  {| getCompilerOptions := options;
     getSourceFiles := map (fun n => {| fileName := n; getLineStarts := [0; 10; 25]%nat |}) rootNames;
     getNodeCount := inject_Z 420;
     getIdentifierCount := inject_Z 130;
     getSymbolCount := inject_Z 77;
     getTypeCount := inject_Z 12;
     getRelationCacheSizes :=
       {| assignable := inject_Z 3; identity := inject_Z 0; subtype := inject_Z 1 |} |}.

(** A host that can do everything unless [bare], which has none of the
    optional members of [sys]. *)
Definition host (bare : bool) : Host Q :=
  {| sys_newLine := String (ascii_of_nat 10) "";
     sys_writeOutputIsTTY := if bare then None else Some false;
     sys_getCurrentDirectory := "work";
     sys_directoryExists := fun p => String.eqb p "proj" || String.eqb p "broken";
     sys_getMemoryUsage := if bare then None else Some (inject_Z 52428800);
     sys_watchFile := negb bare;
     sys_watchDirectory := negb bare;
     sys_getModifiedTime := negb bare;
     sys_setModifiedTime := negb bare;
     sys_deleteFile := negb bare;
     parseCommandLine := parse;
     parseBuildCommand := parseBuild;
     validateLocaleAndSetLanguage :=
       fun locale => if String.eqb locale "en" then []
                     else [createCompilerDiagnostic (Other_message 6048%Z) [locale]];
     normalizePath := fun p => if String.eqb p "." then "" else p;
     combinePaths := combine;
     findConfigFile :=
       fun searchPath fileExists =>
         if fileExists (combine searchPath "tsconfig.json")
         then Some (combine searchPath "tsconfig.json") else None;
     parseConfigFileWithSystem := parseConfig;
     JSON_stringify_convertToTSConfig := fun result configFileName => "{}";
     generateTSConfig := fun _ _ newLine => "{ }" +:+ newLine;
     optionDeclarations :=
       [ CommandLineOption.make "watch" true;
         CommandLineOption.make "noImplicitAny" false;
         CommandLineOption.make "all" true ];
     buildOpts := [ CommandLineOption.make "verbose" false ];
     sort := fun l _ => l;
     compareStringsCaseInsensitive := fun _ _ => Eq;
     isWatchSet := fun _ => false;
     isIncrementalCompilation := fun _ => false;
     getConfigFileParsingDiagnostics := errors;
     createProgram := fun rootNames options _ _ => program rootNames options;
     emitFilesAndReportErrors := fun _ => Success;
     ts_performIncrementalCompilation := fun _ => Success;
     buildAllProjects := fun _ _ => Success;
     cleanAllProjects := fun _ _ => Success;
     getErrorSummaryText := fun _ newLine => "Found errors." +:+ newLine;
     recordMeasures :=
       fun c ms =>
         match c with
         | createProgram_ _ _ _ _ =>
             (ms ++ [("I/O Read", inject_Z 4); ("Program", inject_Z 4)])%list
         | emitFilesAndReportErrors_ _ _ _ =>
             (ms ++ [("Bind", inject_Z 4); ("Check", inject_Z 4);
                     ("Emit", inject_Z 4); ("I/O Write", inject_Z 1)])%list
         | _ => ms
         end |}.

(** The files of the example: a project with a configuration file. *)
Definition someFiles : gmap string string :=
  {[ "proj/tsconfig.json" := "{}"; "broken/tsconfig.json" := "{" ]}.

Definition start : State Q := initialState someFiles [].
Definition startEmpty : State Q := initialState ∅ [].

(** Build options that ask for pretty output, and that forbid it. *)
Definition prettyOptions : Options :=
  ofBuildOptions {| BuildOptions.help := false; BuildOptions.clean := false;
                    BuildOptions.watch := false; BuildOptions.pretty := Some true |}.

Definition plainOptions : Options :=
  ofBuildOptions {| BuildOptions.help := false; BuildOptions.clean := false;
                    BuildOptions.watch := false; BuildOptions.pretty := Some false |}.

(** The state after [updateReportDiagnostic(prettyOptions)]: the reporter
    bound is a pretty one. *)
Definition prettyState : State Q :=
  finalState (updateReportDiagnostic (host false) prettyOptions start).

(** A state in which the four phases took 4 ms each. *)
Definition measuredState : State Q :=
  initialState someFiles
    [("Program", inject_Z 4); ("Bind", inject_Z 4);
     ("Check", inject_Z 4); ("Emit", inject_Z 4)].

(** The program whose statistics are reported in [measuredState]. *)
Definition measuredProgram : Program Q :=
  program ["a.ts"] (parseOptions ["--diagnostics"]).

(** A command line that shows the configuration of a project whose
    configuration file does not parse, and the state when that file has
    been found. *)
Definition brokenArgs : list string := ["-p"; "broken"; "--showConfig"; "--pretty"].

Definition brokenResolved : State Q :=
  appendOutput start
    [Called (parseCommandLine_ brokenArgs);
     SysDirectoryExists "broken";
     SysFileExists "broken/tsconfig.json"].

(** The statistics of the example in the specification. *)
Definition twoStatistics : list Statistic.t :=
  [Statistic.make "Files" "3"; Statistic.make "Lines" "120"].

End Example.

(** ** More names used in the statements *)

Section MoreStatements.

Context {num : Type} `{!JsNumber num}.
Variable host : Host num.

(** Events that only the build dispatcher gives rise to. *)
Definition buildDispatcherOnly (e : Event num) : bool :=
  match e with
  | Called (parseBuildCommand_ _)
  | Called (createSolutionBuilder_ _ _ _ _ _)
  | Called buildAllProjects_
  | Called cleanAllProjects_
  | Called startWatching_ => true
  | _ => false
  end.

(** Events of looking for, probing or reading a configuration file. *)
Definition configLookup (e : Event num) : bool :=
  match e with
  | Called (findConfigFile_ _)
  | Called (parseConfigFileWithSystem_ _ _ _)
  | SysFileExists _
  | SysDirectoryExists _ => true
  | _ => false
  end.

(** Calls that hand the work to the compiler or to the solution builder. *)
Definition engineWork (e : Event num) : bool :=
  match e with
  | Called (createCompilerHost_ _)
  | Called (createProgram_ _ _ _ _)
  | Called (emitFilesAndReportErrors_ _ _ _)
  | Called (performIncrementalCompilation_ _ _ _)
  | Called (createWatchProgram_ _ _ _ _ _)
  | Called (createSolutionBuilder_ _ _ _ _ _)
  | Called buildAllProjects_
  | Called cleanAllProjects_
  | Called startWatching_ => true
  | _ => false
  end.

(** Events that account for a failure: a diagnostic reported, or work
    handed to the compiler or to the solution builder. *)
Definition accountsFor (e : Event num) : bool :=
  match e with
  | Reported _ _ => true
  | _ => engineWork e
  end.

(** [m] always logs an event that accounts for a failure. *)
Definition announces {A} (m : M num A) : Prop :=
  ∀ st, ∃ new, output (finalState (m st)) = (output st ++ new)%list
               ∧ Exists (fun e => accountsFor e = true) new.

(** When [m] exits with a status other than [Success], it has logged an
    event that accounts for it. *)
Definition explained {A} (m : M num A) : Prop :=
  ∀ st status,
    exitStatus (m st) = Some status → status ≠ Success →
    ∃ new, output (finalState (m st)) = (output st ++ new)%list
           ∧ Exists (fun e => accountsFor e = true) new.

(** The reporter bound and the count of reporters are the same in both
    states. *)
Definition sameReporter (st st' : State num) : Prop :=
  reportDiagnostic st' = reportDiagnostic st
  ∧ reportersCreated st' = reportersCreated st.

(** Between the two states one reporter was made, a pretty one, and bound. *)
Definition reboundOnce (st st' : State num) : Prop :=
  reportDiagnostic st' = {| reporter_id := reportersCreated st; reporter_pretty := true |}
  ∧ reportersCreated st' = S (reportersCreated st).

(** The files are the same in both states. *)
Definition sameFiles (st st' : State num) : Prop := files st' = files st.

(** The state with other measures and another [enabled] flag. *)
Definition withPerformance (st : State num) (perf : Performance num) : State num :=
  {| reportDiagnostic := reportDiagnostic st;
     reportersCreated := reportersCreated st;
     files := files st;
     performance := perf;
     output := output st |}.

(** A relation between the state before and the state after that holds
    across whatever only logs or only touches the [performance] module, and
    that composes. *)
Class Frame (R : State num -> State num -> Prop) : Prop := {
  frame_refl : ∀ st, R st st;
  frame_trans : ∀ st1 st2 st3, R st1 st2 → R st2 st3 → R st1 st3;
  frame_log : ∀ st es, R st (appendOutput st es);
  frame_performance : ∀ st perf, R st (withPerformance st perf)
}.

(** Whatever state [m] starts in, the state it ends in is related to it. *)
Definition preserves {A} (R : State num -> State num -> Prop) (m : M num A) : Prop :=
  ∀ st, R st (finalState (m st)).

(** [m] rebinds the reporter at most once, and then to a new pretty one. *)
Definition rebindsAtMostOnce {A} (m : M num A) : Prop :=
  ∀ st, sameReporter st (finalState (m st)) ∨ reboundOnce st (finalState (m st)).

(** The configuration that lines 133-174 work with: the parsed configuration
    file when there is one, the command line otherwise. *)
Definition effectiveConfiguration (commandLine : ParsedCommandLine)
    (configFileName : option string) : ParsedCommandLine :=
  if Js.truthy configFileName
  then parseConfigFileWithSystem host (default "" configFileName) (options commandLine)
  else commandLine.

(** What lines 134 and 145/163 log and do before a mode is chosen: the call
    of the configuration parser when there is a file, then the rebinding. *)
Definition beforeMode (commandLine : ParsedCommandLine)
    (configFileName : option string) (st : State num) : State num :=
  rebound host
    (ofCompilerOptions (options (effectiveConfiguration commandLine configFileName)))
    (if Js.truthy configFileName
     then appendOutput st
            [Called (parseConfigFileWithSystem_ (default "" configFileName)
                       (options commandLine) (reportDiagnostic st))]
     else st).

(** The file that [writeConfigFile] looks at. *)
Definition initFile : string :=
  normalizePath host (combinePaths host (sys_getCurrentDirectory host) "tsconfig.json").


End MoreStatements.

(** ** More hosts and states for the examples *)

Module MoreExamples.

(** The host [h] with a compiler that takes every configuration to ask for
    watch mode. *)
Definition watching (h : Host Q) : Host Q :=
  {| sys_newLine := sys_newLine h;
     sys_writeOutputIsTTY := sys_writeOutputIsTTY h;
     sys_getCurrentDirectory := sys_getCurrentDirectory h;
     sys_directoryExists := sys_directoryExists h;
     sys_getMemoryUsage := sys_getMemoryUsage h;
     sys_watchFile := sys_watchFile h;
     sys_watchDirectory := sys_watchDirectory h;
     sys_getModifiedTime := sys_getModifiedTime h;
     sys_setModifiedTime := sys_setModifiedTime h;
     sys_deleteFile := sys_deleteFile h;
     parseCommandLine := parseCommandLine h;
     parseBuildCommand := parseBuildCommand h;
     validateLocaleAndSetLanguage := validateLocaleAndSetLanguage h;
     normalizePath := normalizePath h;
     combinePaths := combinePaths h;
     findConfigFile := findConfigFile h;
     parseConfigFileWithSystem := parseConfigFileWithSystem h;
     JSON_stringify_convertToTSConfig := JSON_stringify_convertToTSConfig h;
     generateTSConfig := generateTSConfig h;
     optionDeclarations := optionDeclarations h;
     buildOpts := buildOpts h;
     sort := sort h;
     compareStringsCaseInsensitive := compareStringsCaseInsensitive h;
     isWatchSet := fun _ => true;
     isIncrementalCompilation := isIncrementalCompilation h;
     getConfigFileParsingDiagnostics := getConfigFileParsingDiagnostics h;
     createProgram := createProgram h;
     emitFilesAndReportErrors := emitFilesAndReportErrors h;
     ts_performIncrementalCompilation := ts_performIncrementalCompilation h;
     buildAllProjects := buildAllProjects h;
     cleanAllProjects := cleanAllProjects h;
     getErrorSummaryText := getErrorSummaryText h;
     recordMeasures := recordMeasures h |}.

(** The state when the one source file of the command line has been seen. *)
Definition parsed (args : list string) : State Q :=
  appendOutput Example.start [Called (parseCommandLine_ args)].

End MoreExamples.

(** * Properties *)

(** ** Strings *)

Lemma append_length (a b : string) :
  String.length (a +:+ b) = (String.length a + String.length b)%nat.
Proof.
  induction a as [|c a IH]; [done|].
  change (String c a +:+ b) with (String c (a +:+ b)).
  cbn [String.length]. by rewrite IH.
Qed.

Lemma append_assoc (a b c : string) : (a +:+ b) +:+ c = a +:+ (b +:+ c).
Proof.
  induction a as [|x a IH]; [done|].
  change ((String x a +:+ b) +:+ c) with (String x ((a +:+ b) +:+ c)).
  by rewrite IH.
Qed.

Lemma spaces_snoc (n : nat) : spaces n +:+ " " = spaces (S n).
Proof.
  induction n as [|n IH]; [done|].
  change (spaces (S n) +:+ " ") with (String " " (spaces n +:+ " ")).
  by rewrite IH.
Qed.

(** [padLeft] puts exactly the missing spaces in front. *)
Lemma padLeft_spaces (s : string) (n : nat) :
  padLeft s n = spaces (n - String.length s) +:+ s.
Proof.
  funelim (padLeft s n).
  - rewrite H. rewrite append_length. cbn [String.length Nat.add].
    destruct (length - String.length s)%nat as [|k] eqn:Hk; [lia|].
    replace (length - S (String.length s))%nat with k by lia.
    rewrite <- spaces_snoc. by rewrite append_assoc.
  - by replace (length - String.length s)%nat with 0%nat by lia.
Qed.

(** [padRight] puts exactly the missing spaces behind. *)
Lemma padRight_spaces (s : string) (n : nat) :
  padRight s n = s +:+ spaces (n - String.length s).
Proof.
  funelim (padRight s n).
  - rewrite H. rewrite append_length. cbn [String.length Nat.add].
    destruct (length - String.length s)%nat as [|k] eqn:Hk; [lia|].
    replace (length - (String.length s + 1))%nat with k by lia.
    by rewrite append_assoc.
  - replace (length - String.length s)%nat with 0%nat by lia.
    clear. induction s as [|c s IH]; [done|].
    change (String c s +:+ spaces 0) with (String c (s +:+ spaces 0)).
    by rewrite <- IH.
Qed.

(** A string that is long enough comes back as it is. *)
Lemma padLeft_long (s : string) (n : nat) :
  (n ≤ String.length s)%nat → padLeft s n = s.
Proof.
  intros Hn. rewrite padLeft_spaces.
  by replace (n - String.length s)%nat with 0%nat by lia.
Qed.

Lemma padRight_long (s : string) (n : nat) :
  (n ≤ String.length s)%nat → padRight s n = s.
Proof.
  intros Hn. funelim (padRight s n); [lia|done].
Qed.

(** ** The log *)

Section Log.

Context {num : Type} `{!JsNumber num}.
Variable host : Host num.

Lemma appendOutput_nil (st : State num) : appendOutput st [] = st.
Proof. destruct st. unfold appendOutput. cbn. by rewrite app_nil_r. Qed.

Lemma appendOutput_app (st : State num) (a b : list (Event num)) :
  appendOutput (appendOutput st a) b = appendOutput st (a ++ b)%list.
Proof. unfold appendOutput. cbn. by rewrite app_assoc. Qed.

Lemma forEach_log {A} (f : A -> Event num) (xs : list A) (st : State num) :
  forEach xs (fun x => log (f x)) st = Returned tt (appendOutput st (map f xs)).
Proof.
  revert st. induction xs as [|x xs IH]; intros st; cbn.
  - unfold ret. by rewrite appendOutput_nil.
  - unfold bind, log. rewrite IH. by rewrite appendOutput_app.
Qed.

(** Reporting a list of diagnostics logs each of them, in order, through the
    reporter bound at that time. *)
Lemma forEach_reportDiagnostic (ds : list Diagnostic) (st : State num) :
  forEach ds reportDiagnostic_ st =
  Returned tt (appendOutput st (map (Reported (reportDiagnostic st)) ds)).
Proof.
  revert st. induction ds as [|d ds IH]; intros st; cbn.
  - unfold ret. by rewrite appendOutput_nil.
  - unfold bind, reportDiagnostic_, bind, get_reportDiagnostic, log.
    rewrite IH. cbn. by rewrite appendOutput_app.
Qed.

Lemma statisticSizes_from (statistics : list Statistic.t) (a b : nat) :
  fold_left
    (fun '(nameSize, valueSize) s =>
       (if (nameSize <? String.length (Statistic.name s))%nat
        then String.length (Statistic.name s) else nameSize,
        if (valueSize <? String.length (Statistic.value s))%nat
        then String.length (Statistic.value s) else valueSize))
    statistics (a, b)
  = (a `max` max_list (map (fun s => String.length (Statistic.name s)) statistics),
     b `max` max_list (map (fun s => String.length (Statistic.value s)) statistics)).
Proof.
  revert a b.
  induction statistics as [|s statistics IH]; intros a b; cbn -[Nat.ltb Nat.max].
  - f_equal; lia.
  - rewrite IH. f_equal.
    + destruct (Nat.ltb_spec a (String.length (Statistic.name s))); lia.
    + destruct (Nat.ltb_spec b (String.length (Statistic.value s))); lia.
Qed.

Lemma statisticSizes_max (statistics : list Statistic.t) :
  statisticSizes statistics =
  (max_list (map (fun s => String.length (Statistic.name s)) statistics),
   max_list (map (fun s => String.length (Statistic.value s)) statistics)).
Proof. unfold statisticSizes. by rewrite statisticSizes_from. Qed.

Lemma max_list_attained {A} (f : A -> nat) (xs : list A) :
  xs ≠ [] → ∃ x, x ∈ xs ∧ f x = max_list (map f xs).
Proof.
  intros Hne.
  assert (Hin : max_list (map f xs) ∈ map f xs).
  { apply max_list_elem_of. by destruct xs. }
  apply list_elem_of_fmap in Hin as (x & Hx & Hin). eauto.
Qed.

Lemma reportStatistics_local_writes (statistics : list Statistic.t) (st : State num) :
  reportStatistics_local host statistics st =
  Returned tt
    (appendOutput st
       (map (fun s => SysWrite
                        (statisticLine host (fst (statisticSizes statistics))
                           (snd (statisticSizes statistics)) s))
            statistics)).
Proof.
  unfold reportStatistics_local. destruct (statisticSizes statistics) as [n v].
  unfold sys_write. by rewrite forEach_log.
Qed.

End Log.

(** ** The statistics table *)

Section StatisticsTable.

Context {num : Type} `{!JsNumber num}.
Variable host : Host num.

(** C3.  For a non-empty array of statistics, the local [reportStatistics()]
    takes the greatest name length and the greatest value length over the
    whole array, and writes, for each statistic in the order of the array,
    the name and a colon padded on the right to the name width plus two,
    then the value padded on the left to the value width, then the line
    terminator.  [padLeft] and [padRight] only add spaces, exactly as many as
    are missing, and return a string that is long enough as it is. *)
Theorem statistics_rendering (statistics : list Statistic.t) (st : State num) :
  statistics ≠ [] →
  let nameWidth := max_list (map (fun s => String.length (Statistic.name s)) statistics) in
  let valueWidth := max_list (map (fun s => String.length (Statistic.value s)) statistics) in
  statisticSizes statistics = (nameWidth, valueWidth)
  ∧ (∃ s, s ∈ statistics ∧ String.length (Statistic.name s) = nameWidth)
  ∧ (∃ s, s ∈ statistics ∧ String.length (Statistic.value s) = valueWidth)
  ∧ reportStatistics_local host statistics st =
      Returned tt
        (appendOutput st
           (map (fun s =>
                   SysWrite ((padRight (Statistic.name s +:+ ":") (nameWidth + 2)
                              +:+ padLeft (Statistic.value s) valueWidth)
                             +:+ sys_newLine host))
                statistics))
  ∧ (∀ (s : string) (n : nat), padLeft s n = spaces (n - String.length s)%nat +:+ s)
  ∧ (∀ (s : string) (n : nat), padRight s n = s +:+ spaces (n - String.length s)%nat)
  ∧ (∀ (s : string) (n : nat),
       (n ≤ String.length s)%nat → padLeft s n = s ∧ padRight s n = s).
Proof.
  intros Hne nameWidth valueWidth.
  split; [apply statisticSizes_max|].
  split; [by apply (max_list_attained (fun s => String.length (Statistic.name s)))|].
  split; [by apply (max_list_attained (fun s => String.length (Statistic.value s)))|].
  split.
  { rewrite reportStatistics_local_writes, statisticSizes_max. reflexivity. }
  split; [apply padLeft_spaces|].
  split; [apply padRight_spaces|].
  intros s n Hn. split; [by apply padLeft_long|by apply padRight_long].
Qed.

End StatisticsTable.

(** ** The total time *)

Section TotalTime.

Context {num : Type} `{!JsNumber num}.
Variable host : Host num.

Lemma reportTimeStatistic_seconds (statistics : list Statistic.t)
    (name : string) (time : num) :
  reportTimeStatistic statistics name time =
  (statistics ++ [Statistic.make name (seconds time)])%list.
Proof. reflexivity. Qed.

Lemma forEachMeasure_rows (ms : list (string * num)) (statistics : list Statistic.t) :
  fold_left (fun statistics '(name, duration) =>
               reportTimeStatistic statistics (name +:+ " time") duration)
            ms statistics
  = (statistics ++
     map (fun m => Statistic.make (fst m +:+ " time") (seconds (snd m))) ms)%list.
Proof.
  revert statistics. induction ms as [|[name duration] ms IH]; intros statistics; cbn.
  - by rewrite app_nil_r.
  - rewrite IH, reportTimeStatistic_seconds. by rewrite <- app_assoc.
Qed.

(** C4.  In a reporting pass (diagnostics or extended diagnostics is on) the
    last statistic collected, and the last line written, is "Total time";
    its value is the sum of the Program (parse), Bind, Check and Emit
    durations, printed by the rule that prints every time: divided by 1000,
    two decimals, then "s".  Under plain diagnostics the four summands are
    the rows "Parse time", "Bind time", "Check time" and "Emit time", printed
    just before it; under extended diagnostics every recorded measure has
    its row. *)
Theorem total_time_row (program : Program num) (st : State num) :
  CompilerOptions.diagnostics (getCompilerOptions program)
  || CompilerOptions.extendedDiagnostics (getCompilerOptions program) = true →
  let perf := performance st in
  let statistics := collectStatistics host program perf in
  let total := Statistic.make "Total time" (seconds (totalTime perf)) in
  last statistics = Some total
  ∧ last (output (finalState (reportStatistics host program st)))
    = Some (SysWrite (statisticLine host (fst (statisticSizes statistics))
                        (snd (statisticSizes statistics)) total))
  ∧ (CompilerOptions.extendedDiagnostics (getCompilerOptions program) = false →
     ∃ before,
       statistics =
       (before ++
        [Statistic.make "Parse time" (seconds (performance_getDuration perf "Program"));
         Statistic.make "Bind time" (seconds (performance_getDuration perf "Bind"));
         Statistic.make "Check time" (seconds (performance_getDuration perf "Check"));
         Statistic.make "Emit time" (seconds (performance_getDuration perf "Emit"));
         total])%list)
  ∧ (CompilerOptions.extendedDiagnostics (getCompilerOptions program) = true →
     ∀ name duration, (name, duration) ∈ measures perf →
       Statistic.make (name +:+ " time") (seconds duration) ∈ statistics).
Proof.
  intros Hon perf statistics total.
  assert (Hlast : ∃ before, statistics = (before ++ [total])%list).
  { eexists. subst statistics. unfold collectStatistics.
    rewrite (reportTimeStatistic_seconds _ "Total time"). reflexivity. }
  destruct Hlast as [before Hlast].
  split; [rewrite Hlast; apply last_snoc|].
  split.
  { unfold reportStatistics. rewrite Hon.
    unfold bind. fold perf. fold statistics.
    rewrite reportStatistics_local_writes. cbn.
    generalize (statisticSizes statistics). intros sizes.
    rewrite Hlast, map_app, app_assoc. apply last_snoc. }
  split.
  - intros Hext. subst statistics. unfold collectStatistics. rewrite Hext.
    rewrite !reportTimeStatistic_seconds, <- !app_assoc. cbn [app].
    match goal with
    | |- ∃ _, (?pre ++ ?a :: ?b :: _)%list = _ => exists (pre ++ [a; b])%list
    end.
    by rewrite <- app_assoc.
  - intros Hext name duration Hin. subst statistics. unfold collectStatistics.
    rewrite Hext. rewrite forEachMeasure_rows, reportTimeStatistic_seconds.
    apply elem_of_app. left. apply elem_of_app. right.
    apply list_elem_of_fmap. exists (name, duration). done.
Qed.

End TotalTime.

(** ** The mode resolver *)

(** Runs what is left of a path whose tests have all been decided, down to
    its exit, and compares the two states. *)
Ltac finish_run :=
  unfold printVersion, printHelp, reportDiagnostic_, sys_writeFile, sys_write, call,
    bind, get_reportDiagnostic, log, sys_exit, ret;
  unfold appendOutput; cbn; by rewrite <- ?app_assoc.

Section ModeResolver.

Context {num : Type} `{!JsNumber num}.
Variable host : Host num.

Lemma passesErrorCheck_true (args : list string) :
  passesErrorCheck host args = true →
  firstArgumentIsBuild args = false
  ∧ CompilerOptions.build (options (parseCommandLine host args)) = false
  ∧ (0 <? List.length (errors (commandLineAfterLocale host args)))%nat = false.
Proof.
  unfold passesErrorCheck. rewrite !andb_true_iff, !negb_true_iff.
  intros [[? ?] Hlen]. repeat split; try done.
  apply Nat.eqb_eq in Hlen. by rewrite Hlen.
Qed.

Lemma reachesConfigResolution_true (args : list string) :
  reachesConfigResolution host args = true →
  passesErrorCheck host args = true
  ∧ CompilerOptions.init (options (parseCommandLine host args)) = false
  ∧ CompilerOptions.version (options (parseCommandLine host args)) = false
  ∧ CompilerOptions.help (options (parseCommandLine host args)) = false
  ∧ CompilerOptions.all (options (parseCommandLine host args)) = false.
Proof.
  unfold reachesConfigResolution. rewrite !andb_true_iff, !negb_true_iff. tauto.
Qed.

(** Pushing the locale's errors leaves the options and the file names. *)
Lemma commandLineAfterLocale_options (args : list string) :
  options (commandLineAfterLocale host args) = options (parseCommandLine host args).
Proof. unfold commandLineAfterLocale. by destruct (Js.truthy _). Qed.

Lemma commandLineAfterLocale_fileNames (args : list string) :
  fileNames (commandLineAfterLocale host args) = fileNames (parseCommandLine host args).
Proof. unfold commandLineAfterLocale. by destruct (Js.truthy _). Qed.

(** C6.  When the first argument is not the build flag and the parsed
    options have [build] set, the run logs the call of the parser and one
    diagnostic, "Option build must be the first command line argument",
    through the reporter in place, and exits with
    [DiagnosticsPresent_OutputsSkipped]; nothing else happens: no locale is
    validated, no error of the command line is reported, no mode is chosen. *)
Theorem build_must_be_first (args : list string) (st : State num) :
  firstArgumentIsBuild args = false →
  CompilerOptions.build (options (parseCommandLine host args)) = true →
  executeCommandLine host args st =
  Exited DiagnosticsPresent_OutputsSkipped
    (appendOutput st
       [Called (parseCommandLine_ args);
        Reported (reportDiagnostic st)
          (createCompilerDiagnostic Option_build_must_be_the_first_command_line_argument [])]).
Proof.
  intros Hfirst Hbuild. unfold executeCommandLine. rewrite Hfirst.
  unfold bind at 1. unfold call at 1, log at 1. rewrite Hbuild.
  unfold bind, reportDiagnostic_, bind, get_reportDiagnostic, log, sys_exit.
  by rewrite appendOutput_app.
Qed.

(** Lines 55-74 when the first argument is not the build flag and [build] is
    not set: the parser is called, the locale is looked at, and the run goes
    on with the command line. *)
Lemma executeCommandLine_parsed (args : list string) (st : State num) :
  firstArgumentIsBuild args = false →
  CompilerOptions.build (options (parseCommandLine host args)) = false →
  executeCommandLine host args st =
  executeCommandLine_afterLocale host (commandLineAfterLocale host args)
    (appendOutput st (preamble host args)).
Proof.
  intros Hfirst Hbuild. unfold executeCommandLine. rewrite Hfirst.
  unfold bind at 1. unfold call at 1, log at 1. rewrite Hbuild.
  unfold commandLineAfterLocale, preamble.
  destruct (Js.truthy (CompilerOptions.locale (options (parseCommandLine host args)))).
  - unfold bind, call, log, ret. by rewrite appendOutput_app.
  - reflexivity.
Qed.

(** Lines 76-97 when there is nothing to report and none of init, version,
    help and all is asked for. *)
Lemma executeCommandLine_resolves (args : list string) (st : State num) :
  reachesConfigResolution host args = true →
  executeCommandLine host args st =
  bind (resolveConfigFileName host (commandLineAfterLocale host args))
       (executeCommandLine_withConfigFileName host (commandLineAfterLocale host args))
       (appendOutput st (preamble host args)).
Proof.
  intros Hreach.
  apply reachesConfigResolution_true in Hreach as (Hpass & Hinit & Hversion & Hhelp & Hall).
  apply passesErrorCheck_true in Hpass as (Hfirst & Hbuild & Herrors).
  rewrite executeCommandLine_parsed by done.
  unfold executeCommandLine_afterLocale.
  rewrite Herrors, commandLineAfterLocale_options, Hinit, Hversion, Hhelp, Hall.
  reflexivity.
Qed.

(** C10.  With [init] set and no error to report, the run exits with
    [Success] whether the configuration file is there or not.  When it is
    there, a diagnostic says that it is already defined and nothing is
    written: the files are as they were.  When it is not, the generated text
    is written to it and a diagnostic says that it was created. *)
Theorem init_exits_with_success (args : list string) (st : State num) :
  passesErrorCheck host args = true →
  CompilerOptions.init (options (parseCommandLine host args)) = true →
  let commandLine := commandLineAfterLocale host args in
  let file := normalizePath host
                (combinePaths host (sys_getCurrentDirectory host) "tsconfig.json") in
  let text := generateTSConfig host (options commandLine) (fileNames commandLine)
                (sys_newLine host) in
  executeCommandLine host args st =
  Exited Success
    (if fileExistsIn (files st) file then
       appendOutput st
         (preamble host args ++
          [SysFileExists file;
           Reported (reportDiagnostic st)
             (createCompilerDiagnostic
                A_tsconfig_json_file_is_already_defined_at_Colon_0 [file])])
     else
       {| reportDiagnostic := reportDiagnostic st;
          reportersCreated := reportersCreated st;
          files := <[file := text]> (files st);
          performance := performance st;
          output :=
            (output st ++ preamble host args ++
             [SysFileExists file;
              SysWriteFile file text;
              Reported (reportDiagnostic st)
                (createCompilerDiagnostic Successfully_created_a_tsconfig_json_file [])])%list |}).
Proof.
  intros Hpass Hinit commandLine file text.
  apply passesErrorCheck_true in Hpass as (Hfirst & Hbuild & Herrors).
  rewrite executeCommandLine_parsed by done.
  unfold executeCommandLine_afterLocale.
  rewrite Herrors, commandLineAfterLocale_options, Hinit.
  unfold bind at 1. unfold writeConfigFile. fold file.
  unfold bind at 1. unfold sys_fileExists, bind, log, ret. cbn [files appendOutput].
  rewrite <- commandLineAfterLocale_options. fold commandLine. fold text.
  destruct (fileExistsIn (files st) file).
  - finish_run.
  - finish_run.
Qed.

(** C8.  Without a project, without file names and without a configuration
    file up from the current directory, the run prints the version and the
    help (the options of the simplified view) and exits with [Success]. *)
Theorem no_input_prints_help (args : list string) (st : State num) :
  reachesConfigResolution host args = true →
  Js.truthy (CompilerOptions.project (options (parseCommandLine host args))) = false →
  fileNames (parseCommandLine host args) = [] →
  let searchPath := normalizePath host (sys_getCurrentDirectory host) in
  findConfigFile host searchPath (fileExistsIn (files st)) = None →
  let commandLine := commandLineAfterLocale host args in
  executeCommandLine host args st =
  Exited Success
    (appendOutput st
       (preamble host args ++
        [Called (findConfigFile_ searchPath);
         Called printVersion_;
         Called (printHelp_ (getOptionsForHelp host commandLine) None)]))
  ∧ getOptionsForHelp host commandLine =
    filter (fun v => CommandLineOption.showInSimplifiedHelpView v = true)
           (optionDeclarations host).
Proof.
  intros Hreach Hproject Hfiles searchPath Hfind commandLine.
  rewrite executeCommandLine_resolves by done.
  apply reachesConfigResolution_true in Hreach as (_ & _ & _ & _ & Hall).
  split.
  - unfold bind at 1. unfold resolveConfigFileName.
    rewrite commandLineAfterLocale_options, Hproject,
      commandLineAfterLocale_fileNames, Hfiles.
    cbn [List.length Nat.eqb]. fold searchPath.
    unfold bind, call, log, ret. cbn [files appendOutput]. rewrite Hfind.
    unfold executeCommandLine_withConfigFileName.
    rewrite commandLineAfterLocale_fileNames, Hfiles. cbn [List.length Nat.eqb Js.truthy negb andb].
    finish_run.
  - unfold getOptionsForHelp, commandLine.
    by rewrite commandLineAfterLocale_options, Hall.
Qed.

(** C7.  With [project] set: when there are file names the run reports
    "Option project cannot be mixed with source files" and exits with
    [DiagnosticsPresent_OutputsSkipped], having probed no path, searched no
    configuration file and parsed none.  When there are no file names, the
    normalized project path stands for a directory (when it is empty or
    names one) whose tsconfig.json is taken, or else for the file itself; when
    the path so resolved does not exist the run reports it and exits with
    [DiagnosticsPresent_OutputsSkipped], and when it exists it becomes the
    configuration file name. *)
Theorem project_option (args : list string) (st : State num) :
  reachesConfigResolution host args = true →
  Js.truthy (CompilerOptions.project (options (parseCommandLine host args))) = true →
  let commandLine := commandLineAfterLocale host args in
  let project := default "" (CompilerOptions.project (options commandLine)) in
  let fileOrDirectory := normalizePath host project in
  let isDirectory := String.eqb fileOrDirectory ""
                     || sys_directoryExists host fileOrDirectory in
  let resolved := if isDirectory
                  then combinePaths host fileOrDirectory "tsconfig.json"
                  else fileOrDirectory in
  let probes := ((if String.eqb fileOrDirectory "" then []
                  else [SysDirectoryExists fileOrDirectory])
                 ++ [SysFileExists resolved])%list in
  (fileNames commandLine ≠ [] →
     executeCommandLine host args st =
     Exited DiagnosticsPresent_OutputsSkipped
       (appendOutput st
          (preamble host args ++
           [Reported (reportDiagnostic st)
              (createCompilerDiagnostic
                 Option_project_cannot_be_mixed_with_source_files_on_a_command_line [])])))
  ∧ (fileNames commandLine = [] → fileExistsIn (files st) resolved = false →
     executeCommandLine host args st =
     Exited DiagnosticsPresent_OutputsSkipped
       (appendOutput st
          (preamble host args ++ probes ++
           [Reported (reportDiagnostic st)
              (createCompilerDiagnostic
                 (if isDirectory
                  then Cannot_find_a_tsconfig_json_file_at_the_specified_directory_Colon_0
                  else The_specified_path_does_not_exist_Colon_0)
                 [project])])))
  ∧ (fileNames commandLine = [] → fileExistsIn (files st) resolved = true →
     resolveConfigFileName host commandLine (appendOutput st (preamble host args)) =
     Returned (Some resolved) (appendOutput st (preamble host args ++ probes))).
Proof.
  intros Hreach Hproject commandLine project fileOrDirectory isDirectory resolved probes.
  rewrite executeCommandLine_resolves by done.
  fold commandLine.
  assert (Hp : Js.truthy (CompilerOptions.project (options commandLine)) = true).
  { unfold commandLine. by rewrite commandLineAfterLocale_options. }
  unfold bind at 1. unfold resolveConfigFileName. rewrite !Hp.
  fold project. fold fileOrDirectory.
  split; [|split].
  - intros Hfiles. destruct (fileNames commandLine) as [|f fs]; [done|].
    cbn [List.length Nat.eqb negb].
    finish_run.
  - intros Hfiles Hmissing. rewrite Hfiles. cbn [List.length Nat.eqb negb].
    subst probes resolved isDirectory.
    unfold bind, sys_directoryExists_, sys_fileExists, bind, log, ret in *.
    destruct (String.eqb fileOrDirectory ""); cbn [orb files appendOutput] in *.
    + rewrite Hmissing. cbn [negb]. finish_run.
    + destruct (sys_directoryExists host fileOrDirectory);
        cbn [files appendOutput]; rewrite Hmissing; cbn [negb]; finish_run.
  - intros Hfiles Hexists. rewrite Hfiles. cbn [List.length Nat.eqb negb].
    subst probes resolved isDirectory.
    unfold bind, sys_directoryExists_, sys_fileExists, bind, log, ret in *.
    destruct (String.eqb fileOrDirectory ""); cbn [orb files appendOutput] in *.
    + rewrite Hexists. cbn [negb]. finish_run.
    + destruct (sys_directoryExists host fileOrDirectory);
        cbn [files appendOutput]; rewrite Hexists; cbn [negb]; finish_run.
Qed.

(** What [updateReportDiagnostic] does to the state. *)
Lemma updateReportDiagnostic_rebound (options : Options) (st : State num) :
  updateReportDiagnostic host options st = Returned tt (rebound host options st).
Proof.
  unfold updateReportDiagnostic, rebound, reboundReporter.
  destruct (shouldBePretty host (Some options)); [reflexivity|].
  unfold ret. by destruct st.
Qed.

(** C2.  A run that gets to the configuration with [showConfig] set.  With a
    configuration file: when its parse has no errors the run writes the JSON
    text of the effective configuration and the line terminator, and exits
    with [Success]; when it has errors the run rebinds the reporter from the
    options of the partial result, reports every error through it, writes
    nothing, and exits with [DiagnosticsPresent_OutputsSkipped].  Without a
    configuration file (there are file names, and the command line has no
    errors) the run writes the JSON text made from the command line and exits
    with [Success]. *)
Theorem showConfig_branch (args : list string) (st st1 : State num)
    (configFileName : option string) :
  reachesConfigResolution host args = true →
  CompilerOptions.showConfig (options (parseCommandLine host args)) = true →
  let commandLine := commandLineAfterLocale host args in
  resolveConfigFileName host commandLine (appendOutput st (preamble host args))
    = Returned configFileName st1 →
  (fileNames commandLine = [] → Js.truthy configFileName = true) →
  let name := default "" configFileName in
  let configParseResult := parseConfigFileWithSystem host name (options commandLine) in
  let parsed := Called (parseConfigFileWithSystem_ name (options commandLine)
                          (reportDiagnostic st1)) in
  (Js.truthy configFileName = true → errors configParseResult = [] →
     executeCommandLine host args st =
     Exited Success
       (appendOutput st1
          [parsed;
           SysWrite (JSON_stringify_convertToTSConfig host configParseResult name
                     +:+ sys_newLine host)]))
  ∧ (Js.truthy configFileName = true → errors configParseResult ≠ [] →
     let st2 := rebound host (ofCompilerOptions (options configParseResult))
                  (appendOutput st1 [parsed]) in
     executeCommandLine host args st =
     Exited DiagnosticsPresent_OutputsSkipped
       (appendOutput st2
          (map (Reported (reportDiagnostic st2)) (errors configParseResult)))
     ∧ output (finalState (executeCommandLine host args st)) =
       (output st1 ++
        parsed :: map (Reported (reportDiagnostic st2)) (errors configParseResult))%list)
  ∧ (Js.truthy configFileName = false →
     errors commandLine = []
     ∧ executeCommandLine host args st =
       Exited Success
         (appendOutput st1
            [SysWrite (JSON_stringify_convertToTSConfig host commandLine
                         (combinePaths host (sys_getCurrentDirectory host) "tsconfig.json")
                       +:+ sys_newLine host)])).
Proof.
  intros Hreach Hshow commandLine Hresolve Hmode name configParseResult parsed.
  assert (Hs : CompilerOptions.showConfig (options commandLine) = true).
  { unfold commandLine. by rewrite commandLineAfterLocale_options. }
  assert (Hrun : executeCommandLine host args st =
                 executeCommandLine_withConfigFileName host commandLine configFileName st1).
  { rewrite executeCommandLine_resolves by done.
    fold commandLine. unfold bind at 1. by rewrite Hresolve. }
  rewrite Hrun. clear Hrun. unfold executeCommandLine_withConfigFileName.
  rewrite !Hs.
  split; [|split].
  - intros Hconfig Herrors. rewrite !Hconfig, andb_false_r.
    fold name. unfold bind at 1. unfold get_reportDiagnostic.
    unfold bind at 1. unfold call at 1, log at 1.
    fold configParseResult. rewrite Herrors. cbn [List.length Nat.eqb negb].
    unfold bind, sys_write, log, sys_exit. by rewrite appendOutput_app.
  - intros Hconfig Herrors. rewrite !Hconfig, andb_false_r.
    match goal with
    | |- ?run = ?result ∧ _ => assert (Hexit : run = result)
    end.
    { fold name. unfold bind at 1. unfold get_reportDiagnostic.
      unfold bind at 1. unfold call at 1, log at 1.
      fold configParseResult.
      destruct (errors configParseResult) as [|e es] eqn:He; [done|].
      cbn [List.length Nat.eqb negb].
      unfold bind at 1. rewrite updateReportDiagnostic_rebound.
      unfold bind. rewrite forEach_reportDiagnostic. reflexivity. }
    split; [exact Hexit|]. rewrite Hexit. cbn. by rewrite <- app_assoc.
  - intros Hconfig.
    apply reachesConfigResolution_true in Hreach as (Hpass & _).
    apply passesErrorCheck_true in Hpass as (_ & _ & Herrors).
    fold commandLine in Herrors.
    split; [by destruct (errors commandLine)|].
    rewrite !Hconfig.
    destruct (fileNames commandLine) as [|f fs] eqn:Hfiles.
    { rewrite Hmode in Hconfig; done. }
    cbn [List.length Nat.eqb andb].
    unfold bind, sys_write, log, sys_exit. reflexivity.
Qed.

End ModeResolver.

(** ** The reporter *)

Section Reporter.

Context {num : Type} `{!JsNumber num}.
Variable host : Host num.

(** C5, as the code has it.  [updateReportDiagnostic(options)] makes a new
    reporter, a pretty one, and binds it in place of the current one exactly
    when the computed prettiness is true; otherwise the current reporter
    stays, whatever its own prettiness.  Nothing is logged, so no diagnostic
    is replayed, and files and measures are untouched.  The computed
    prettiness is [options.pretty] when that is set and the terminal probe
    otherwise.  When the current reporter is plain, as it is when the module
    has been loaded, the reporter is replaced exactly when the computed
    prettiness differs from its own. *)
Theorem updateReportDiagnostic_rebinds (options : Options) (st : State num) :
  (reporter_id (reportDiagnostic st) < reportersCreated st)%nat →
  let st' := finalState (updateReportDiagnostic host options st) in
  updateReportDiagnostic host options st = Returned tt st'
  ∧ (reportDiagnostic st' ≠ reportDiagnostic st
     ↔ shouldBePretty host (Some options) = true)
  ∧ (shouldBePretty host (Some options) = true →
     reportDiagnostic st' =
     {| reporter_id := reportersCreated st; reporter_pretty := true |}
     ∧ reportersCreated st' = S (reportersCreated st))
  ∧ (shouldBePretty host (Some options) = false → st' = st)
  ∧ output st' = output st
  ∧ files st' = files st
  ∧ performance st' = performance st
  ∧ shouldBePretty host (Some options) =
    match Options_pretty options with
    | Some pretty => pretty
    | None => defaultIsPretty host
    end
  ∧ (reporter_pretty (reportDiagnostic st) = false →
     (reportDiagnostic st' ≠ reportDiagnostic st
      ↔ shouldBePretty host (Some options) ≠ reporter_pretty (reportDiagnostic st)))
  ∧ (reporter_id (reportDiagnostic st') < reportersCreated st')%nat.
Proof.
  intros Hfresh st'. subst st'. rewrite updateReportDiagnostic_rebound.
  cbn [finalState]. unfold rebound, reboundReporter.
  assert (Hpretty_eq : shouldBePretty host (Some options) =
                       match Options_pretty options with
                       | Some pretty => pretty
                       | None => defaultIsPretty host
                       end) by reflexivity.
  assert (Hnew : {| reporter_id := reportersCreated st; reporter_pretty := true |}
                 ≠ reportDiagnostic st).
  { intros Heq. rewrite <- Heq in Hfresh. cbn in Hfresh. lia. }
  destruct (shouldBePretty host (Some options)) eqn:Hpretty;
    cbn [reportDiagnostic reportersCreated output files performance].
  - split; [done|]. split; [done|]. split; [done|]. split; [done|].
    split; [done|]. split; [done|]. split; [done|]. split; [done|].
    split; [|cbn; lia]. intros Hplain. rewrite Hplain. done.
  - split; [done|]. split; [split; [done|done]|]. split; [done|].
    split; [by destruct st|].
    split; [done|]. split; [done|]. split; [done|]. split; [done|].
    split; [|done]. intros Hplain. rewrite Hplain. done.
Qed.

End Reporter.

(** ** The build dispatcher *)

Section BuildDispatcher.

Context {num : Type} `{!JsNumber num}.
Variable host : Host num.
Variable P : Event num -> Prop.

Lemma logsOnly_ret {A} (a : A) : logsOnly P (ret a).
Proof. intros st. exists []. cbn. by rewrite app_nil_r. Qed.

Lemma logsOnly_exit {A} (status : ExitStatus) : logsOnly P (@sys_exit num A status).
Proof. intros st. exists []. cbn. by rewrite app_nil_r. Qed.

Lemma logsOnly_log (e : Event num) : P e → logsOnly P (log e).
Proof. intros He st. exists [e]. cbn. split; [done|]. by constructor. Qed.

Lemma logsOnly_engineCall (c : Call num) : P (Called c) → logsOnly P (engineCall host c).
Proof. intros He st. exists [Called c]. cbn. split; [done|]. by constructor. Qed.

Lemma logsOnly_bind {A B} (m : M num A) (k : A -> M num B) :
  logsOnly P m → (∀ a, logsOnly P (k a)) → logsOnly P (bind m k).
Proof.
  intros Hm Hk st. unfold bind.
  destruct (Hm st) as (new1 & Hout1 & Hall1).
  destruct (m st) as [a st1|status st1]; cbn in Hout1.
  - destruct (Hk a st1) as (new2 & Hout2 & Hall2).
    exists (new1 ++ new2)%list. rewrite Hout2, Hout1, app_assoc.
    split; [done|]. by apply Forall_app.
  - exists new1. done.
Qed.

Lemma logsOnly_forEach {A} (xs : list A) (f : A -> M num unit) :
  (∀ x, logsOnly P (f x)) → logsOnly P (forEach xs f).
Proof.
  intros Hf. induction xs as [|x xs IH]; cbn.
  - apply logsOnly_ret.
  - apply logsOnly_bind; [apply Hf|intros _; apply IH].
Qed.

Lemma logsOnly_reportDiagnostic (d : Diagnostic) :
  (∀ r, P (Reported r d)) → logsOnly P (reportDiagnostic_ d).
Proof. intros Hd st. exists [Reported (reportDiagnostic st) d]. cbn. split; [done|]. by constructor. Qed.

Lemma logsOnly_updateReportDiagnostic (options : Options) :
  logsOnly P (updateReportDiagnostic host options).
Proof.
  intros st. exists []. rewrite updateReportDiagnostic_rebound. cbn. by rewrite app_nil_r.
Qed.

End BuildDispatcher.

Section Build.

Context {num : Type} `{!JsNumber num}.
Variable host : Host num.

(** The build dispatcher never does what only the mode resolver does. *)
Lemma performBuild_logs (args : list string) :
  logsOnly (fun e => modeResolverOnly e = false) (performBuild host args).
Proof.
  unfold performBuild, printVersion, printHelp, reportWatchModeWithoutSysSupport, call.
  repeat first
    [ apply logsOnly_ret
    | apply logsOnly_exit
    | apply logsOnly_log; reflexivity
    | apply logsOnly_engineCall; reflexivity
    | apply logsOnly_updateReportDiagnostic
    | apply logsOnly_reportDiagnostic; intros ?; reflexivity
    | apply logsOnly_forEach; intros ?
    | apply logsOnly_bind; [|intros ?]
    | match goal with
      | |- logsOnly _ (if ?b then _ else _) => destruct b
      | |- logsOnly _ get_reportDiagnostic =>
          intros st; exists []; cbn; by rewrite app_nil_r
      end ].
Qed.

(** C9.  In a build whose command has no errors, does not ask for help and
    names a project: when the host cannot read modification times, or cannot
    set them, or [clean] is asked for and the host cannot delete files, the
    dispatcher reports one diagnostic, "The current host does not support
    the --build option", through the reporter that line 187 left in place,
    and exits with [DiagnosticsPresent_OutputsSkipped].  The log holds the
    call of the parser and that diagnostic: no builder is made, nothing is
    built or cleaned. *)
Theorem build_needs_host_support (args : list string) (st : State num) :
  let command := parseBuildCommand host args in
  let buildOptions := ParsedBuildCommand.buildOptions command in
  ParsedBuildCommand.errors command = [] →
  BuildOptions.help buildOptions = false →
  ParsedBuildCommand.projects command ≠ [] →
  (sys_getModifiedTime host = false
   ∨ sys_setModifiedTime host = false
   ∨ (BuildOptions.clean buildOptions = true ∧ sys_deleteFile host = false)) →
  let st1 := rebound host (ofBuildOptions buildOptions)
               (appendOutput st [Called (parseBuildCommand_ args)]) in
  let unsupported :=
    Reported (reportDiagnostic st1)
      (createCompilerDiagnostic The_current_host_does_not_support_the_0_option ["--build"]) in
  performBuild host args st =
    Exited DiagnosticsPresent_OutputsSkipped (appendOutput st1 [unsupported])
  ∧ output (finalState (performBuild host args st)) =
    (output st ++ [Called (parseBuildCommand_ args); unsupported])%list
  ∧ files (finalState (performBuild host args st)) = files st.
Proof.
  intros command buildOptions Herrors Hhelp Hprojects Hhost st1 unsupported.
  assert (Hrun : performBuild host args st =
                 Exited DiagnosticsPresent_OutputsSkipped (appendOutput st1 [unsupported])).
  { unfold performBuild. fold command. fold buildOptions.
    unfold bind at 1. unfold call at 1, log at 1.
    unfold bind at 1. rewrite updateReportDiagnostic_rebound. fold st1.
    rewrite Herrors, Hhelp. cbn [List.length Nat.ltb Nat.leb].
    destruct (ParsedBuildCommand.projects command) as [|p ps]; [done|].
    cbn [List.length Nat.eqb].
    assert (Hguard : negb (sys_getModifiedTime host) || negb (sys_setModifiedTime host)
                     || (BuildOptions.clean buildOptions && negb (sys_deleteFile host)) = true).
    { destruct Hhost as [->| [->| [-> ->]]]; cbn; try done.
      - by rewrite orb_true_r.
      - by rewrite orb_true_r. }
    rewrite Hguard.
    unfold bind, reportDiagnostic_, bind, get_reportDiagnostic, log, sys_exit.
    reflexivity. }
  rewrite Hrun. cbn [finalState].
  split; [done|]. split.
  - subst st1. unfold rebound, appendOutput. cbn. by rewrite <- app_assoc.
  - reflexivity.
Qed.

End Build.

(** ** The build redirect *)

Section BuildRedirect.

Context {num : Type} `{!JsNumber num}.
Variable host : Host num.

(** A character that lowercases to "b" is not the minus sign. *)
Lemma lowerChar_b_not_minus (c : ascii) :
  Js.lowerChar c = "b"%char → nat_of_ascii c ≠ Js.minus.
Proof.
  intros Hb Hminus.
  assert (Hc : c = ascii_of_nat Js.minus) by (by rewrite <- Hminus, ascii_nat_embedding).
  subst c. vm_compute in Hb. discriminate.
Qed.

Lemma firstArgumentIsBuild_flag (arg0 name : string) (rest : list string) :
  arg0 = "-" +:+ name ∨ arg0 = "--" +:+ name →
  Js.toLowerCase name = "build" ∨ Js.toLowerCase name = "b" →
  firstArgumentIsBuild (arg0 :: rest) = true.
Proof.
  intros Harg Hname.
  assert (Hword : String.eqb (Js.toLowerCase name) "build"
                  || String.eqb (Js.toLowerCase name) "b" = true).
  { destruct Hname as [-> | ->]; reflexivity. }
  destruct Harg as [-> | ->].
  - destruct name as [|c name'].
    { destruct Hname as [Hname|Hname]; discriminate Hname. }
    assert (Hc : Js.lowerChar c = "b"%char).
    { destruct Hname as [Hname|Hname]; cbn in Hname; by inversion Hname. }
    apply lowerChar_b_not_minus in Hc.
    unfold firstArgumentIsBuild.
    change (Js.charCodeAt ("-" +:+ String c name') 0) with (Some Js.minus).
    change (Js.charCodeAt ("-" +:+ String c name') 1) with (Some (nat_of_ascii c)).
    rewrite bool_decide_eq_true_2 by done.
    rewrite bool_decide_eq_false_2 by (intros [= ?]; done).
    cbv iota.
    change (Js.slice ("-" +:+ String c name') 1) with (String c name').
    by rewrite Hword.
  - unfold firstArgumentIsBuild.
    change (Js.charCodeAt ("--" +:+ name) 0) with (Some Js.minus).
    change (Js.charCodeAt ("--" +:+ name) 1) with (Some Js.minus).
    rewrite !bool_decide_eq_true_2 by done.
    cbv iota.
    change (Js.slice ("--" +:+ name) 2) with name.
    by rewrite Hword.
Qed.

(** C1.  When the first argument is one or two minus signs followed by a
    name that is "build" or "b" up to the case of its letters,
    [executeCommandLine] is [performBuild] on the arguments that follow:
    same outcome, same state.  The events of such a run are those of the
    build dispatcher; none is an event that only the mode resolver gives
    rise to, so neither [parseCommandLine] nor anything after it has run. *)
Theorem build_redirect (arg0 name : string) (rest : list string) (st : State num) :
  arg0 = "-" +:+ name ∨ arg0 = "--" +:+ name →
  Js.toLowerCase name = "build" ∨ Js.toLowerCase name = "b" →
  executeCommandLine host (arg0 :: rest) st = performBuild host rest st
  ∧ ∃ new,
      output (finalState (executeCommandLine host (arg0 :: rest) st))
      = (output st ++ new)%list
      ∧ Forall (fun e => modeResolverOnly e = false) new.
Proof.
  intros Harg Hname.
  assert (Hrun : executeCommandLine host (arg0 :: rest) st = performBuild host rest st).
  { unfold executeCommandLine.
    by rewrite (firstArgumentIsBuild_flag arg0 name rest Harg Hname). }
  split; [done|]. rewrite Hrun. apply performBuild_logs.
Qed.

End BuildRedirect.

(** ** Runs on the example host *)

Example padLeft_pads : padLeft "12" 5 = "   12".
Proof. reflexivity. Qed.

Example padRight_pads : padRight "Files:" 8 = "Files:  ".
Proof. reflexivity. Qed.

Example padLeft_keeps : padLeft "Identifiers" 3 = "Identifiers".
Proof. reflexivity. Qed.

(** Which first arguments send the run to the build dispatcher. *)
Example build_flag_forms :
  map (fun a => firstArgumentIsBuild [a])
      ["-b"; "--b"; "-B"; "-build"; "--Build"; "---b"; "-"; "b"; "--builds"; ""]
  = [true; true; true; true; true; false; false; false; false; false].
Proof. reflexivity. Qed.

(** A compilation with diagnostics: the statistics table ends with the
    total.  Each of the four phases took 4 ms and prints as 0.00s; their sum
    prints as 0.02s. *)
Example diagnostics_run :
  let result := executeCommandLine (Example.host false) ["a.ts"; "--diagnostics"]
                  Example.start in
  exitStatus result = Some Success
  ∧ drop 13 (output (finalState result))
    = [SysWrite ("Parse time:   0.00s" +:+ sys_newLine (Example.host false));
       SysWrite ("Bind time:    0.00s" +:+ sys_newLine (Example.host false));
       SysWrite ("Check time:   0.00s" +:+ sys_newLine (Example.host false));
       SysWrite ("Emit time:    0.00s" +:+ sys_newLine (Example.host false));
       SysWrite ("Total time:   0.02s" +:+ sys_newLine (Example.host false))].
Proof. vm_compute. split; reflexivity. Qed.

(** A build on a host without file times. *)
Example build_on_bare_host :
  output (finalState (executeCommandLine (Example.host true) ["-b"; "proj"] Example.start))
  = [Called (parseBuildCommand_ ["proj"]);
     Reported {| reporter_id := 0; reporter_pretty := false |}
       (createCompilerDiagnostic The_current_host_does_not_support_the_0_option ["--build"])].
Proof. reflexivity. Qed.

(** ** The theorems at work on the example host *)

Lemma build_redirect_witness :
  ("--BUILD" = "-" +:+ "BUILD" ∨ "--BUILD" = "--" +:+ "BUILD")
  ∧ (Js.toLowerCase "BUILD" = "build" ∨ Js.toLowerCase "BUILD" = "b")
  ∧ executeCommandLine (Example.host false) ["--BUILD"; "proj"] Example.start
    = performBuild (Example.host false) ["proj"] Example.start.
Proof.
  split; [right; reflexivity|]. split; [left; reflexivity|].
  apply (build_redirect (Example.host false) "--BUILD" "BUILD" ["proj"] Example.start);
    [right|left]; reflexivity.
Defined.

Lemma build_must_be_first_witness :
  firstArgumentIsBuild ["a.ts"; "--build"] = false
  ∧ CompilerOptions.build
      (options (parseCommandLine (Example.host false) ["a.ts"; "--build"])) = true
  ∧ exitStatus (executeCommandLine (Example.host false) ["a.ts"; "--build"] Example.start)
    = Some DiagnosticsPresent_OutputsSkipped.
Proof.
  split; [reflexivity|]. split; [reflexivity|].
  rewrite (build_must_be_first (Example.host false) ["a.ts"; "--build"] Example.start);
    reflexivity.
Defined.

Lemma init_exits_with_success_witness :
  passesErrorCheck (Example.host false) ["--init"] = true
  ∧ CompilerOptions.init (options (parseCommandLine (Example.host false) ["--init"])) = true
  ∧ exitStatus (executeCommandLine (Example.host false) ["--init"] Example.start)
    = Some Success.
Proof.
  split; [reflexivity|]. split; [reflexivity|].
  rewrite (init_exits_with_success (Example.host false) ["--init"] Example.start);
    reflexivity.
Defined.

Lemma no_input_prints_help_witness :
  reachesConfigResolution (Example.host false) [] = true
  ∧ Js.truthy (CompilerOptions.project (options (parseCommandLine (Example.host false) []))) = false
  ∧ fileNames (parseCommandLine (Example.host false) []) = []
  ∧ findConfigFile (Example.host false)
      (normalizePath (Example.host false) (sys_getCurrentDirectory (Example.host false)))
      (fileExistsIn (files Example.startEmpty)) = None
  ∧ exitStatus (executeCommandLine (Example.host false) [] Example.startEmpty)
    = Some Success.
Proof.
  split; [reflexivity|]. split; [reflexivity|]. split; [reflexivity|].
  split; [reflexivity|].
  rewrite (proj1 (no_input_prints_help (Example.host false) [] Example.startEmpty
                    eq_refl eq_refl eq_refl eq_refl)).
  reflexivity.
Defined.

Lemma project_option_witness :
  reachesConfigResolution (Example.host false) ["-p"; "proj"; "a.ts"] = true
  ∧ Js.truthy (CompilerOptions.project
                 (options (parseCommandLine (Example.host false) ["-p"; "proj"; "a.ts"]))) = true
  ∧ fileNames (commandLineAfterLocale (Example.host false) ["-p"; "proj"; "a.ts"]) ≠ []
  ∧ exitStatus (executeCommandLine (Example.host false) ["-p"; "proj"; "a.ts"] Example.start)
    = Some DiagnosticsPresent_OutputsSkipped.
Proof.
  split; [reflexivity|]. split; [reflexivity|]. split; [discriminate|].
  rewrite (proj1 (project_option (Example.host false) ["-p"; "proj"; "a.ts"] Example.start
                    eq_refl eq_refl)); [reflexivity|discriminate].
Defined.

Lemma showConfig_branch_witness :
  reachesConfigResolution (Example.host false) Example.brokenArgs = true
  ∧ CompilerOptions.showConfig
      (options (parseCommandLine (Example.host false) Example.brokenArgs)) = true
  ∧ resolveConfigFileName (Example.host false)
      (commandLineAfterLocale (Example.host false) Example.brokenArgs)
      (appendOutput Example.start (preamble (Example.host false) Example.brokenArgs))
    = Returned (Some "broken/tsconfig.json") Example.brokenResolved
  ∧ exitStatus (executeCommandLine (Example.host false) Example.brokenArgs Example.start)
    = Some DiagnosticsPresent_OutputsSkipped.
Proof.
  split; [reflexivity|]. split; [reflexivity|]. split; [reflexivity|].
  destruct (proj1 (proj2 (showConfig_branch (Example.host false) Example.brokenArgs
                            Example.start Example.brokenResolved
                            (Some "broken/tsconfig.json")
                            eq_refl eq_refl eq_refl (fun _ => eq_refl))))
    as [Hrun _]; [reflexivity|discriminate|].
  rewrite Hrun. reflexivity.
Defined.

Lemma statistics_rendering_witness :
  Example.twoStatistics ≠ []
  ∧ output (finalState (reportStatistics_local (Example.host false)
                          Example.twoStatistics Example.startEmpty))
    = [SysWrite ("Files:   3" +:+ sys_newLine (Example.host false));
       SysWrite ("Lines: 120" +:+ sys_newLine (Example.host false))].
Proof.
  split; [discriminate|].
  destruct (statistics_rendering (Example.host false) Example.twoStatistics
              Example.startEmpty) as (_ & _ & _ & Hrun & _); [discriminate|].
  rewrite Hrun. vm_compute. reflexivity.
Defined.

Lemma total_time_row_witness :
  CompilerOptions.diagnostics (getCompilerOptions Example.measuredProgram)
  || CompilerOptions.extendedDiagnostics (getCompilerOptions Example.measuredProgram) = true
  ∧ last (collectStatistics (Example.host false) Example.measuredProgram
            (performance Example.measuredState))
    = Some (Statistic.make "Total time" "0.02s").
Proof.
  split; [reflexivity|].
  rewrite (proj1 (total_time_row (Example.host false) Example.measuredProgram
                    Example.measuredState eq_refl)).
  vm_compute. reflexivity.
Defined.

Lemma updateReportDiagnostic_rebinds_witness :
  (reporter_id (reportDiagnostic Example.start) < reportersCreated Example.start)%nat
  ∧ reportDiagnostic
      (finalState (updateReportDiagnostic (Example.host false)
                     Example.prettyOptions Example.start))
    = {| reporter_id := 1; reporter_pretty := true |}.
Proof.
  assert (Hfresh : (reporter_id (reportDiagnostic Example.start)
                    < reportersCreated Example.start)%nat) by (cbn; lia).
  split; [exact Hfresh|].
  destruct (updateReportDiagnostic_rebinds (Example.host false)
              Example.prettyOptions Example.start Hfresh)
    as (_ & _ & Hnew & _).
  destruct (Hnew eq_refl) as [-> _]. reflexivity.
Defined.

Lemma build_needs_host_support_witness :
  ParsedBuildCommand.errors (parseBuildCommand (Example.host true) ["proj"]) = []
  ∧ BuildOptions.help
      (ParsedBuildCommand.buildOptions (parseBuildCommand (Example.host true) ["proj"]))
    = false
  ∧ ParsedBuildCommand.projects (parseBuildCommand (Example.host true) ["proj"]) ≠ []
  ∧ sys_getModifiedTime (Example.host true) = false
  ∧ exitStatus (performBuild (Example.host true) ["proj"] Example.start)
    = Some DiagnosticsPresent_OutputsSkipped.
Proof.
  split; [reflexivity|]. split; [reflexivity|]. split; [discriminate|].
  split; [reflexivity|].
  rewrite (proj1 (build_needs_host_support (Example.host true) ["proj"] Example.start
                    eq_refl eq_refl ltac:(discriminate) (or_introl eq_refl))).
  reflexivity.
Defined.

(** C5, as the claim has it, fails on a state whose reporter is pretty: with
    options that set [pretty] to false the computed prettiness differs from
    the reporter's, and the reporter stays. *)
Lemma rebind_keeps_a_pretty_reporter :
  ¬ (reportDiagnostic
       (finalState (updateReportDiagnostic (Example.host false)
                      Example.plainOptions Example.prettyState))
     ≠ reportDiagnostic Example.prettyState
     ↔ shouldBePretty (Example.host false) (Some Example.plainOptions)
       ≠ reporter_pretty (reportDiagnostic Example.prettyState)).
Proof.
  intros [_ Hreplaced]. apply Hreplaced; [discriminate|reflexivity].
Qed.

(** * Further properties *)

(** ** Padding and the alignment of the table *)

Lemma spaces_length (n : nat) : String.length (spaces n) = n.
Proof.
  induction n as [|n IH]; [done|].
  change (String.length (spaces (S n))) with (S (String.length (spaces n))).
  by rewrite IH.
Qed.

Lemma spaces_add (a b : nat) : spaces a +:+ spaces b = spaces (a + b).
Proof.
  induction a as [|a IH]; [done|].
  change (spaces (S a) +:+ spaces b) with (String " " (spaces a +:+ spaces b)).
  by rewrite IH.
Qed.

Lemma padLeft_length (s : string) (n : nat) :
  String.length (padLeft s n) = (String.length s `max` n)%nat.
Proof. rewrite padLeft_spaces, append_length, spaces_length. lia. Qed.

Lemma padRight_length (s : string) (n : nat) :
  String.length (padRight s n) = (String.length s `max` n)%nat.
Proof. rewrite padRight_spaces, append_length, spaces_length. lia. Qed.

(** X1.  Padding twice is padding once to the greater width, on either
    side; in particular padding again to the same width changes nothing. *)
Theorem pad_twice (s : string) (n m : nat) :
  padLeft (padLeft s n) m = padLeft s (n `max` m)
  ∧ padRight (padRight s n) m = padRight s (n `max` m).
Proof.
  split.
  - rewrite (padLeft_spaces (padLeft s n)), padLeft_length.
    rewrite !padLeft_spaces, <- append_assoc, spaces_add. f_equal. f_equal. lia.
  - rewrite (padRight_spaces (padRight s n)), padRight_length.
    rewrite !padRight_spaces, append_assoc, spaces_add. f_equal. f_equal. lia.
Qed.

Section Table.

Context {num : Type} `{!JsNumber num}.
Variable host : Host num.

(** X2.  The table is aligned: every line written for a statistic of the
    array has the same length, the name width plus two plus the value width
    plus the line terminator; the name and its colon are followed by at
    least one space, and the value ends the line. *)
Theorem statistic_lines_aligned (statistics : list Statistic.t) (s : Statistic.t) :
  s ∈ statistics →
  String.length
    (statisticLine host (fst (statisticSizes statistics))
       (snd (statisticSizes statistics)) s)
  = (fst (statisticSizes statistics) + 2 + snd (statisticSizes statistics)
     + String.length (sys_newLine host))%nat
  ∧ ∃ gap, (1 ≤ gap)%nat
    ∧ statisticLine host (fst (statisticSizes statistics))
        (snd (statisticSizes statistics)) s
      = ((Statistic.name s +:+ ":") +:+ spaces gap)
        +:+ (Statistic.value s +:+ sys_newLine host).
Proof.
  intros Hin. rewrite statisticSizes_max. cbn [fst snd].
  set (nameSize := max_list (map _ statistics)).
  set (valueSize := max_list (map (fun s => String.length (Statistic.value s)) statistics)).
  assert (Hname : (String.length (Statistic.name s) ≤ nameSize)%nat).
  { apply max_list_elem_of_le, list_elem_of_fmap. by exists s. }
  assert (Hvalue : (String.length (Statistic.value s) ≤ valueSize)%nat).
  { apply max_list_elem_of_le, list_elem_of_fmap. by exists s. }
  assert (Hcolon : String.length (Statistic.name s +:+ ":")
                   = S (String.length (Statistic.name s))).
  { rewrite append_length. cbn. lia. }
  unfold statisticLine. split.
  - rewrite !append_length, padRight_length, padLeft_length, Hcolon. lia.
  - exists ((nameSize + 2 - S (String.length (Statistic.name s)))
            + (valueSize - String.length (Statistic.value s)))%nat.
    split; [lia|].
    rewrite padRight_spaces, padLeft_spaces, Hcolon, <- spaces_add.
    by rewrite !append_assoc.
Qed.

(** X3.  [reportStatistics] does nothing at all when neither diagnostics
    option is set.  When one is set it returns (it never exits), having
    written one line for each collected statistic and nothing else, having
    left the files and the reporter alone, and with the [performance] module
    disabled. *)
Theorem reportStatistics_effect (program : Program num) (st : State num) :
  let on := CompilerOptions.diagnostics (getCompilerOptions program)
            || CompilerOptions.extendedDiagnostics (getCompilerOptions program) in
  let statistics := collectStatistics host program (performance st) in
  ∃ st',
    reportStatistics host program st = Returned tt st'
    ∧ (on = false → st' = st)
    ∧ (on = true →
       output st' =
         (output st ++
          map (fun s => SysWrite (statisticLine host (fst (statisticSizes statistics))
                                    (snd (statisticSizes statistics)) s))
              statistics)%list
       ∧ List.length (output st') = (List.length (output st) + List.length statistics)%nat
       ∧ enabled (performance st') = false
       ∧ measures (performance st') = measures (performance st))
    ∧ files st' = files st
    ∧ sameReporter st st'.
Proof.
  intros on statistics. unfold reportStatistics. fold on.
  destruct on.
  - unfold bind. fold statistics. rewrite reportStatistics_local_writes.
    eexists. split; [reflexivity|]. cbn.
    split; [done|]. split; [|done]. intros _.
    split; [done|]. split; [|done].
    by rewrite length_app, length_map.
  - exists st. unfold ret. repeat split; done.
Qed.

(** X4.  The order of the rows.  The six counts come first; then "Memory
    used" when the memory is known and not negative; then, under extended
    diagnostics, the three cache sizes and one row for every recorded measure
    in the order of the measures, named after the measure, and otherwise the
    six fixed times; "Total time" is last. *)
Theorem statistics_row_order (program : Program num) (perf : Performance num) :
  let memoryUsed := match sys_getMemoryUsage host with
                    | Some used => used
                    | None => num_lit (-1)
                    end in
  map Statistic.name (collectStatistics host program perf) =
  (["Files"; "Lines"; "Nodes"; "Identifiers"; "Symbols"; "Types"]
   ++ (if num_geb memoryUsed (num_lit 0) then ["Memory used"] else [])
   ++ (if CompilerOptions.extendedDiagnostics (getCompilerOptions program)
       then ["Assignability cache size"; "Identity cache size"; "Subtype cache size"]
            ++ map (fun m => fst m +:+ " time") (measures perf)
       else ["I/O read"; "I/O write"; "Parse time"; "Bind time"; "Check time"; "Emit time"])
   ++ ["Total time"])%list.
Proof.
  intros memoryUsed. unfold collectStatistics. fold memoryUsed.
  destruct (CompilerOptions.extendedDiagnostics (getCompilerOptions program)).
  - rewrite forEachMeasure_rows.
    unfold reportTimeStatistic, reportCountStatistic, reportStatisticalValue.
    destruct (num_geb memoryUsed (num_lit 0));
      rewrite !map_app, map_map; cbn; rewrite <- ?app_assoc; reflexivity.
  - unfold reportTimeStatistic, reportCountStatistic, reportStatisticalValue.
    destruct (num_geb memoryUsed (num_lit 0)); reflexivity.
Qed.


End Table.

(** ** Early exits of the mode resolver *)

Section EarlyExits.

Context {num : Type} `{!JsNumber num}.
Variable host : Host num.

(** X6.  Errors of the command line.  When the parser or the validation of
    the locale has left an error, the run reports every error, those of the
    parser first and then those of the locale, through the reporter that was
    bound when the run began (prettiness is not looked at), and exits with
    [DiagnosticsPresent_OutputsSkipped]; init, version, help and everything
    after them are not looked at. *)
Theorem command_line_errors (args : list string) (st : State num) :
  firstArgumentIsBuild args = false →
  CompilerOptions.build (options (parseCommandLine host args)) = false →
  errors (commandLineAfterLocale host args) ≠ [] →
  executeCommandLine host args st =
  Exited DiagnosticsPresent_OutputsSkipped
    (appendOutput st
       (preamble host args ++
        map (Reported (reportDiagnostic st)) (errors (commandLineAfterLocale host args))))
  ∧ errors (commandLineAfterLocale host args) =
    (errors (parseCommandLine host args) ++
     (if Js.truthy (CompilerOptions.locale (options (parseCommandLine host args)))
      then validateLocaleAndSetLanguage host
             (default "" (CompilerOptions.locale (options (parseCommandLine host args))))
      else []))%list.
Proof.
  intros Hfirst Hbuild Herrors. split.
  - rewrite executeCommandLine_parsed by done.
    unfold executeCommandLine_afterLocale.
    destruct (errors (commandLineAfterLocale host args)) as [|e es] eqn:He; [done|].
    cbn [List.length Nat.ltb Nat.leb].
    unfold bind. rewrite forEach_reportDiagnostic. unfold sys_exit.
    by rewrite appendOutput_app.
  - unfold commandLineAfterLocale.
    destruct (Js.truthy _); cbn; [done|]. by rewrite app_nil_r.
Qed.

(** X7.  With [version] set, no error and no init, the run prints the
    version and exits with [Success], whatever else is asked for: help, a
    project, file names. *)
Theorem version_exits (args : list string) (st : State num) :
  passesErrorCheck host args = true →
  CompilerOptions.init (options (parseCommandLine host args)) = false →
  CompilerOptions.version (options (parseCommandLine host args)) = true →
  executeCommandLine host args st =
  Exited Success (appendOutput st (preamble host args ++ [Called printVersion_])).
Proof.
  intros Hpass Hinit Hversion.
  apply passesErrorCheck_true in Hpass as (Hfirst & Hbuild & Herrors).
  rewrite executeCommandLine_parsed by done.
  unfold executeCommandLine_afterLocale.
  rewrite Herrors, commandLineAfterLocale_options, Hinit, Hversion.
  finish_run.
Qed.

(** X8.  With [help] or [all] set, no error, no init and no version, the run
    prints the version and the help and exits with [Success], whatever
    project or file names are given.  The options listed are all the declared
    options as [sort] orders them by name when [all] is set, and otherwise
    the declared options of the simplified view, in the order of their
    declaration. *)
Theorem help_exits (args : list string) (st : State num) :
  passesErrorCheck host args = true →
  CompilerOptions.init (options (parseCommandLine host args)) = false →
  CompilerOptions.version (options (parseCommandLine host args)) = false →
  CompilerOptions.help (options (parseCommandLine host args))
  || CompilerOptions.all (options (parseCommandLine host args)) = true →
  let listed := getOptionsForHelp host (commandLineAfterLocale host args) in
  executeCommandLine host args st =
  Exited Success
    (appendOutput st
       (preamble host args ++ [Called printVersion_; Called (printHelp_ listed None)]))
  ∧ (CompilerOptions.all (options (parseCommandLine host args)) = true →
     listed = sort host (optionDeclarations host)
                (fun a b => compareStringsCaseInsensitive host
                              (CommandLineOption.name a) (CommandLineOption.name b)))
  ∧ (CompilerOptions.all (options (parseCommandLine host args)) = false →
     listed `sublist_of` optionDeclarations host
     ∧ ∀ v, v ∈ listed ↔
            v ∈ optionDeclarations host
            ∧ CommandLineOption.showInSimplifiedHelpView v = true).
Proof.
  intros Hpass Hinit Hversion Hhelp listed.
  apply passesErrorCheck_true in Hpass as (Hfirst & Hbuild & Herrors).
  split; [|split].
  - rewrite executeCommandLine_parsed by done.
    unfold executeCommandLine_afterLocale.
    rewrite Herrors, commandLineAfterLocale_options, Hinit, Hversion, Hhelp.
    fold listed. finish_run.
  - intros Hall. unfold listed, getOptionsForHelp.
    by rewrite commandLineAfterLocale_options, Hall.
  - intros Hall. unfold listed, getOptionsForHelp.
    rewrite commandLineAfterLocale_options, Hall. split.
    + apply sublist_filter.
    + intros v. rewrite list_elem_of_filter. tauto.
Qed.

End EarlyExits.

(** ** The terminal actions *)

Section TerminalActions.

Context {num : Type} `{!JsNumber num}.
Variable host : Host num.


(** [enableStatistics] only ever touches the [enabled] flag. *)
Lemma enableStatistics_returns (options : CompilerOptions.t) (st : State num) :
  ∃ st', enableStatistics options st = Returned tt st'
         ∧ output st' = output st ∧ reportDiagnostic st' = reportDiagnostic st.
Proof.
  unfold enableStatistics. destruct (_ || _); eexists; (split; [reflexivity|done]).
Qed.

Lemma reportStatistics_returns (program : Program num) (st : State num) :
  ∃ st', reportStatistics host program st = Returned tt st'.
Proof.
  unfold reportStatistics. destruct (_ || _); [|by eexists].
  unfold bind. rewrite reportStatistics_local_writes. by eexists.
Qed.

Lemma performCompilation_exitStatus (rootNames : list string)
    (references : option (list ProjectReference)) (options : CompilerOptions.t)
    (configFileParsingDiagnostics : option (list Diagnostic)) (st : State num) :
  exitStatus (performCompilation host rootNames references options
                configFileParsingDiagnostics st)
  = Some (emitFilesAndReportErrors host
            (createProgram host rootNames options references
               configFileParsingDiagnostics)).
Proof.
  unfold performCompilation.
  unfold bind at 1. unfold call at 1, log at 1. unfold bind at 1.
  destruct (enableStatistics_returns options (appendOutput st [Called (createCompilerHost_ options)]))
    as (st1 & -> & _).
  unfold bind at 1. unfold engineCall at 1.
  unfold bind at 1. unfold get_reportDiagnostic.
  unfold bind at 1. unfold engineCall at 1.
  unfold bind.
  match goal with
  | |- context [reportStatistics host ?program ?s] =>
      destruct (reportStatistics_returns program s) as (st2 & ->)
  end.
  reflexivity.
Qed.

Lemma performIncrementalCompilation_exitStatus (config : ParsedCommandLine)
    (st : State num) :
  exitStatus (performIncrementalCompilation host config st)
  = Some (ts_performIncrementalCompilation host config).
Proof.
  unfold performIncrementalCompilation. unfold bind at 1.
  destruct (enableStatistics_returns (options config) st) as (st1 & -> & _).
  reflexivity.
Qed.



End TerminalActions.

(** ** The choice of a mode *)

Section ModeSelection.

Context {num : Type} `{!JsNumber num}.
Variable host : Host num.

Lemma updateReportDiagnostic_beforeMode (commandLine : ParsedCommandLine)
    (configFileName : option string) (st1 : State num) :
  Js.truthy configFileName = false →
  rebound host (ofCompilerOptions (options commandLine)) st1
  = beforeMode host commandLine configFileName st1.
Proof.
  intros Hnone. unfold beforeMode, effectiveConfiguration. by rewrite Hnone.
Qed.

(** Lines 126-175 when [showConfig] is not set and the help of line 126 is
    not due: the configuration file is parsed when there is one, the
    reporter is rebound, and one of the three modes runs. *)
Lemma executeCommandLine_selects (args : list string) (st st1 : State num)
    (configFileName : option string) :
  reachesConfigResolution host args = true →
  CompilerOptions.showConfig (options (parseCommandLine host args)) = false →
  let commandLine := commandLineAfterLocale host args in
  resolveConfigFileName host commandLine (appendOutput st (preamble host args))
    = Returned configFileName st1 →
  (fileNames commandLine = [] → Js.truthy configFileName = true) →
  let config := effectiveConfiguration host commandLine configFileName in
  executeCommandLine host args st =
  (if isWatchSet host (options config) then
     bind (reportWatchModeWithoutSysSupport host)
          (fun _ => if Js.truthy configFileName
                    then createWatchOfConfigFile host config (options commandLine)
                    else createWatchOfFilesAndCompilerOptions host
                           (fileNames commandLine) (options commandLine))
   else if isIncrementalCompilation host (options config) then
     performIncrementalCompilation host config
   else
     performCompilation host (fileNames config)
       (if Js.truthy configFileName then projectReferences config else None)
       (options config)
       (if Js.truthy configFileName
        then Some (getConfigFileParsingDiagnostics host config) else None))
    (beforeMode host commandLine configFileName st1).
Proof.
  intros Hreach Hshow commandLine Hresolve Hmode config.
  assert (Hs : CompilerOptions.showConfig (options commandLine) = false).
  { unfold commandLine. by rewrite commandLineAfterLocale_options. }
  rewrite executeCommandLine_resolves by done.
  fold commandLine. unfold bind at 1. rewrite Hresolve.
  unfold executeCommandLine_withConfigFileName. rewrite !Hs.
  subst config. unfold beforeMode, effectiveConfiguration.
  destruct (Js.truthy configFileName) eqn:Hconfig.
  - rewrite andb_false_r.
    unfold bind at 1. unfold get_reportDiagnostic.
    unfold bind at 1. unfold call at 1, log at 1.
    unfold bind at 1. rewrite updateReportDiagnostic_rebound.
    destruct (isWatchSet host _); [reflexivity|].
    destruct (isIncrementalCompilation host _); reflexivity.
  - destruct (fileNames commandLine) as [|f fs] eqn:Hfiles.
    { by specialize (Hmode eq_refl). }
    cbn [List.length Nat.eqb andb].
    unfold bind at 1. rewrite updateReportDiagnostic_rebound.
    destruct (isWatchSet host _); [reflexivity|].
    destruct (isIncrementalCompilation host _); reflexivity.
Qed.

(** X11.  Watch mode comes first among the modes.  When the effective
    options ask for it and the host can watch files and directories, the run
    makes the watch program (of the configuration file when there is one, of
    the file names otherwise), with the reporter as rebound, and returns
    without an exit status; nothing is compiled by the driver itself.  When
    the host cannot watch files or cannot watch directories, the run reports
    one diagnostic, that the host does not support --watch, and exits with
    [DiagnosticsPresent_OutputsSkipped] without making a watch program. *)
Theorem watch_mode (args : list string) (st st1 : State num)
    (configFileName : option string) :
  reachesConfigResolution host args = true →
  CompilerOptions.showConfig (options (parseCommandLine host args)) = false →
  let commandLine := commandLineAfterLocale host args in
  resolveConfigFileName host commandLine (appendOutput st (preamble host args))
    = Returned configFileName st1 →
  (fileNames commandLine = [] → Js.truthy configFileName = true) →
  let config := effectiveConfiguration host commandLine configFileName in
  isWatchSet host (options config) = true →
  let st2 := beforeMode host commandLine configFileName st1 in
  let watchProgram :=
    if Js.truthy configFileName
    then createWatchProgram_ (CompilerOptions.configFilePath (options config)) []
           (options commandLine) (reportDiagnostic st2)
           (shouldBePretty host (Some (ofCompilerOptions (options config))))
    else createWatchProgram_ None (fileNames commandLine)
           (options commandLine) (reportDiagnostic st2)
           (shouldBePretty host (Some (ofCompilerOptions (options commandLine)))) in
  (sys_watchFile host && sys_watchDirectory host = true →
     exitStatus (executeCommandLine host args st) = None
     ∧ output (finalState (executeCommandLine host args st))
       = (output st2 ++ [Called watchProgram])%list)
  ∧ (sys_watchFile host && sys_watchDirectory host = false →
     executeCommandLine host args st =
     Exited DiagnosticsPresent_OutputsSkipped
       (appendOutput st2
          [Reported (reportDiagnostic st2)
             (createCompilerDiagnostic
                The_current_host_does_not_support_the_0_option ["--watch"])])).
Proof.
  intros Hreach Hshow commandLine Hresolve Hmode config Hwatch st2 watchProgram.
  rewrite (executeCommandLine_selects args st st1 configFileName) by done.
  fold commandLine. fold config. rewrite Hwatch. fold st2.
  unfold reportWatchModeWithoutSysSupport.
  split.
  - intros Hcan. apply andb_true_iff in Hcan as [-> ->]. cbn [negb orb].
    subst watchProgram. unfold bind at 1, ret.
    destruct (Js.truthy configFileName);
      unfold createWatchOfConfigFile, createWatchOfFilesAndCompilerOptions,
        createWatchStatusReporter, bind, get_reportDiagnostic, engineCall; cbn; done.
  - intros Hcannot.
    assert (Hguard : negb (sys_watchFile host) || negb (sys_watchDirectory host) = true).
    { destruct (sys_watchFile host), (sys_watchDirectory host); done. }
    rewrite Hguard. finish_run.
Qed.

(** X12.  Without watch mode the run is an incremental compilation when
    the effective options ask for one, and a single compilation otherwise.
    Either way the exit status is the compiler's: the driver passes on what
    [ts.performIncrementalCompilation] or [emitFilesAndReportErrors] gave.
    Project references and the diagnostics of the configuration file go to
    the program only when there is a configuration file. *)
Theorem compile_modes (args : list string) (st st1 : State num)
    (configFileName : option string) :
  reachesConfigResolution host args = true →
  CompilerOptions.showConfig (options (parseCommandLine host args)) = false →
  let commandLine := commandLineAfterLocale host args in
  resolveConfigFileName host commandLine (appendOutput st (preamble host args))
    = Returned configFileName st1 →
  (fileNames commandLine = [] → Js.truthy configFileName = true) →
  let config := effectiveConfiguration host commandLine configFileName in
  isWatchSet host (options config) = false →
  let st2 := beforeMode host commandLine configFileName st1 in
  let references := if Js.truthy configFileName then projectReferences config else None in
  let parsingDiagnostics :=
    if Js.truthy configFileName
    then Some (getConfigFileParsingDiagnostics host config) else None in
  (isIncrementalCompilation host (options config) = true →
     executeCommandLine host args st = performIncrementalCompilation host config st2
     ∧ exitStatus (executeCommandLine host args st)
       = Some (ts_performIncrementalCompilation host config))
  ∧ (isIncrementalCompilation host (options config) = false →
     executeCommandLine host args st =
       performCompilation host (fileNames config) references (options config)
         parsingDiagnostics st2
     ∧ exitStatus (executeCommandLine host args st)
       = Some (emitFilesAndReportErrors host
                 (createProgram host (fileNames config) (options config) references
                    parsingDiagnostics))).
Proof.
  intros Hreach Hshow commandLine Hresolve Hmode config Hwatch st2 references
    parsingDiagnostics.
  rewrite (executeCommandLine_selects args st st1 configFileName) by done.
  fold commandLine. fold config. rewrite Hwatch. fold st2.
  split; intros ->.
  - split; [done|]. apply performIncrementalCompilation_exitStatus.
  - split; [done|]. apply performCompilation_exitStatus.
Qed.

End ModeSelection.

(** ** The paths of the build dispatcher *)

Section BuildPaths.

Context {num : Type} `{!JsNumber num}.
Variable host : Host num.

(** Lines 185-187: the build command is parsed and the reporter rebound. *)
Lemma performBuild_begins (args : list string) (st : State num)
    (k : M num unit) :
  bind (call (parseBuildCommand_ args))
       (fun _ => bind (updateReportDiagnostic host
                         (ofBuildOptions (ParsedBuildCommand.buildOptions
                                            (parseBuildCommand host args))))
                      (fun _ => k)) st
  = k (rebound host
         (ofBuildOptions (ParsedBuildCommand.buildOptions (parseBuildCommand host args)))
         (appendOutput st [Called (parseBuildCommand_ args)])).
Proof.
  unfold bind at 1. unfold call at 1, log at 1.
  unfold bind at 1. by rewrite updateReportDiagnostic_rebound.
Qed.

(** The capability test of line 206 fails exactly when the host has what is
    needed. *)
Lemma build_supported (buildOptions : BuildOptions.t) :
  sys_getModifiedTime host = true →
  sys_setModifiedTime host = true →
  (BuildOptions.clean buildOptions = true → sys_deleteFile host = true) →
  negb (sys_getModifiedTime host) || negb (sys_setModifiedTime host)
  || (BuildOptions.clean buildOptions && negb (sys_deleteFile host)) = false.
Proof.
  intros -> -> Hclean. destruct (BuildOptions.clean buildOptions); [|done].
  by rewrite Hclean.
Qed.

(** X13.  Errors of a build command are reported, each in order, through
    the reporter as already rebound from the build options (unlike the errors
    of an ordinary command line, which go through the reporter bound before),
    and the run exits with [DiagnosticsPresent_OutputsSkipped] whatever else
    the command asks for. *)
Theorem build_errors (args : list string) (st : State num) :
  let command := parseBuildCommand host args in
  ParsedBuildCommand.errors command ≠ [] →
  let st1 := rebound host (ofBuildOptions (ParsedBuildCommand.buildOptions command))
               (appendOutput st [Called (parseBuildCommand_ args)]) in
  performBuild host args st =
  Exited DiagnosticsPresent_OutputsSkipped
    (appendOutput st1
       (map (Reported (reportDiagnostic st1)) (ParsedBuildCommand.errors command))).
Proof.
  intros command Herrors st1. unfold performBuild.
  rewrite performBuild_begins. fold command. fold st1.
  destruct (ParsedBuildCommand.errors command) as [|e es] eqn:He; [done|].
  cbn [List.length Nat.ltb Nat.leb].
  unfold bind. by rewrite forEach_reportDiagnostic.
Qed.

(** X14.  A build command without errors that asks for help, or names no
    project, prints the version and the help of the build options with the
    prefix "--build ", and exits with [Success]; no capability of the host
    is needed for that and no builder is made. *)
Theorem build_help (args : list string) (st : State num) :
  let command := parseBuildCommand host args in
  ParsedBuildCommand.errors command = [] →
  BuildOptions.help (ParsedBuildCommand.buildOptions command) = true
  ∨ ParsedBuildCommand.projects command = [] →
  let st1 := rebound host (ofBuildOptions (ParsedBuildCommand.buildOptions command))
               (appendOutput st [Called (parseBuildCommand_ args)]) in
  performBuild host args st =
  Exited Success
    (appendOutput st1
       [Called printVersion_; Called (printHelp_ (buildOpts host) (Some "--build "))]).
Proof.
  intros command Herrors Hhelp st1. unfold performBuild.
  rewrite performBuild_begins. fold command. fold st1.
  rewrite Herrors. cbn [List.length Nat.ltb Nat.leb].
  destruct (BuildOptions.help (ParsedBuildCommand.buildOptions command)) eqn:Hh.
  - finish_run.
  - destruct Hhelp as [|Hnone]; [done|]. rewrite Hnone.
    cbn [List.length Nat.eqb]. finish_run.
Qed.

(** X15.  A build that is not a watch: when the command has no errors,
    does not ask for help, names a project, and the host has what is needed,
    the dispatcher makes one solution builder and runs exactly one of clean
    (when [clean] is set) and build; the process exits with the status that
    operation returned. *)
Theorem build_status (args : list string) (st : State num) :
  let command := parseBuildCommand host args in
  let buildOptions := ParsedBuildCommand.buildOptions command in
  let projects := ParsedBuildCommand.projects command in
  ParsedBuildCommand.errors command = [] →
  BuildOptions.help buildOptions = false →
  projects ≠ [] →
  sys_getModifiedTime host = true →
  sys_setModifiedTime host = true →
  (BuildOptions.clean buildOptions = true → sys_deleteFile host = true) →
  BuildOptions.watch buildOptions = false →
  let st1 := rebound host (ofBuildOptions buildOptions)
               (appendOutput st [Called (parseBuildCommand_ args)]) in
  exitStatus (performBuild host args st)
  = Some (if BuildOptions.clean buildOptions
          then cleanAllProjects host projects buildOptions
          else buildAllProjects host projects buildOptions)
  ∧ output (finalState (performBuild host args st))
    = (output st1 ++
       [Called (createSolutionBuilder_ false projects buildOptions (reportDiagnostic st1)
                  (shouldBePretty host (Some (ofBuildOptions buildOptions))));
        Called (if BuildOptions.clean buildOptions
                then cleanAllProjects_ else buildAllProjects_)])%list.
Proof.
  intros command buildOptions projects Herrors Hhelp Hprojects Hget Hset Hdelete
    Hwatch st1.
  unfold performBuild. rewrite performBuild_begins.
  fold command. fold buildOptions. fold projects. fold st1.
  rewrite Herrors, Hhelp. cbn [List.length Nat.ltb Nat.leb].
  destruct projects as [|p ps] eqn:Hp; [done|]. cbn [List.length Nat.eqb].
  rewrite build_supported by done. rewrite Hwatch.
  unfold bind, ret, get_reportDiagnostic, engineCall, sys_exit.
  destruct (BuildOptions.clean buildOptions); cbn; by rewrite <- ?app_assoc.
Qed.

(** X16.  A build in watch mode, on a host that can build.  When the host
    can watch files and directories the dispatcher makes a watching solution
    builder, builds all projects, starts watching, and returns without an
    exit status.  When it cannot, the dispatcher reports that the host does
    not support --watch and exits with [DiagnosticsPresent_OutputsSkipped];
    no builder is made. *)
Theorem build_watch (args : list string) (st : State num) :
  let command := parseBuildCommand host args in
  let buildOptions := ParsedBuildCommand.buildOptions command in
  let projects := ParsedBuildCommand.projects command in
  ParsedBuildCommand.errors command = [] →
  BuildOptions.help buildOptions = false →
  projects ≠ [] →
  sys_getModifiedTime host = true →
  sys_setModifiedTime host = true →
  (BuildOptions.clean buildOptions = true → sys_deleteFile host = true) →
  BuildOptions.watch buildOptions = true →
  let st1 := rebound host (ofBuildOptions buildOptions)
               (appendOutput st [Called (parseBuildCommand_ args)]) in
  (sys_watchFile host && sys_watchDirectory host = true →
     exitStatus (performBuild host args st) = None
     ∧ output (finalState (performBuild host args st))
       = (output st1 ++
          [Called (createSolutionBuilder_ true projects buildOptions (reportDiagnostic st1)
                     (shouldBePretty host (Some (ofBuildOptions buildOptions))));
           Called buildAllProjects_;
           Called startWatching_])%list)
  ∧ (sys_watchFile host && sys_watchDirectory host = false →
     performBuild host args st =
     Exited DiagnosticsPresent_OutputsSkipped
       (appendOutput st1
          [Reported (reportDiagnostic st1)
             (createCompilerDiagnostic
                The_current_host_does_not_support_the_0_option ["--watch"])])).
Proof.
  intros command buildOptions projects Herrors Hhelp Hprojects Hget Hset Hdelete
    Hwatch st1.
  unfold performBuild. rewrite performBuild_begins.
  fold command. fold buildOptions. fold projects. fold st1.
  rewrite Herrors, Hhelp. cbn [List.length Nat.ltb Nat.leb].
  destruct projects as [|p ps] eqn:Hp; [done|]. cbn [List.length Nat.eqb].
  rewrite build_supported by done. rewrite Hwatch.
  unfold reportWatchModeWithoutSysSupport. split.
  - intros Hcan. apply andb_true_iff in Hcan as [-> ->]. cbn [negb orb].
    unfold bind, ret, get_reportDiagnostic, engineCall. cbn.
    split; [done|]. by rewrite <- ?app_assoc.
  - intros Hcannot.
    assert (Hguard : negb (sys_watchFile host) || negb (sys_watchDirectory host) = true).
    { destruct (sys_watchFile host), (sys_watchDirectory host); done. }
    rewrite Hguard. finish_run.
Qed.

End BuildPaths.

(** ** What a whole run logs *)

Section WholeRunLog.

Context {num : Type} `{!JsNumber num}.
Variable host : Host num.
Variable P : Event num -> Prop.

Lemma logsOnly_unchanged {A} (m : M num A) :
  (∀ st, output (finalState (m st)) = output st) → logsOnly P m.
Proof. intros Hm st. exists []. rewrite Hm. by rewrite app_nil_r. Qed.

Lemma logsOnly_fileExists (path : string) :
  P (SysFileExists path) → logsOnly P (sys_fileExists path).
Proof. intros He st. exists [SysFileExists path]. split; [done|]. by constructor. Qed.

Lemma logsOnly_directoryExists (path : string) :
  P (SysDirectoryExists path) → logsOnly P (sys_directoryExists_ host path).
Proof. intros He st. exists [SysDirectoryExists path]. split; [done|]. by constructor. Qed.

Lemma logsOnly_writeFile (path data : string) :
  P (SysWriteFile path data) → logsOnly P (sys_writeFile path data).
Proof. intros He st. exists [SysWriteFile path data]. split; [done|]. by constructor. Qed.

Lemma logsOnly_enableStatistics (options : CompilerOptions.t) :
  logsOnly P (enableStatistics options).
Proof.
  apply logsOnly_unchanged. intros st. unfold enableStatistics.
  by destruct (_ || _).
Qed.

Lemma logsOnly_reportStatistics (program : Program num) :
  (∀ s, P (SysWrite s)) → logsOnly P (reportStatistics host program).
Proof.
  intros Hwrite st. unfold reportStatistics.
  destruct (_ || _).
  - unfold bind. rewrite reportStatistics_local_writes. cbn.
    eexists. split; [reflexivity|].
    apply Forall_forall. intros e He.
    apply list_elem_of_fmap in He as (s & -> & _). apply Hwrite.
  - exists []. cbn. by rewrite app_nil_r.
Qed.

End WholeRunLog.

(** Walks through a function of the driver, leaving the events it logs to
    be checked against the predicate. *)
Ltac walk_log host :=
  unfold executeCommandLine_afterLocale, resolveConfigFileName,
    executeCommandLine_withConfigFileName, performBuild, performCompilation,
    performIncrementalCompilation, createWatchOfConfigFile,
    createWatchOfFilesAndCompilerOptions, reportWatchModeWithoutSysSupport,
    writeConfigFile, printVersion, printHelp, sys_write, call;
  repeat first
    [ apply logsOnly_ret
    | apply logsOnly_exit
    | apply logsOnly_log; first [reflexivity | exact I]
    | apply logsOnly_engineCall; first [reflexivity | exact I]
    | apply logsOnly_fileExists; first [reflexivity | exact I]
    | apply logsOnly_directoryExists; first [reflexivity | exact I]
    | apply logsOnly_writeFile; first [reflexivity | exact I]
    | apply logsOnly_enableStatistics
    | apply (logsOnly_reportStatistics host); intros ?; first [reflexivity | exact I]
    | apply logsOnly_updateReportDiagnostic
    | apply logsOnly_reportDiagnostic; intros ?; first [reflexivity | exact I]
    | apply logsOnly_forEach; intros ?
    | apply logsOnly_bind; [|intros ?]
    | match goal with
      | |- logsOnly _ (if ?b then _ else _) => destruct b
      | |- logsOnly _ get_reportDiagnostic =>
          apply logsOnly_unchanged; intros ?; first [reflexivity | exact I]
      | |- logsOnly _ (fun st => ret _ st) =>
          apply logsOnly_unchanged; intros ?; first [reflexivity | exact I]
      end ].

Section NeverDone.

Context {num : Type} `{!JsNumber num}.
Variable host : Host num.

Lemma executeCommandLine_afterLocale_no_build (commandLine : ParsedCommandLine) :
  logsOnly (fun e => buildDispatcherOnly e = false)
           (executeCommandLine_afterLocale host commandLine).
Proof. walk_log host. Qed.

(** X17.  When the first argument is not the build flag, the first thing a
    run does is to call [parseCommandLine] on all the arguments, and nothing
    it does afterwards belongs to the build dispatcher: no build command is
    parsed, no solution builder is made, nothing is built, cleaned or watched
    by a builder.  The log it started with is kept as it was. *)
Theorem mode_resolver_never_builds (args : list string) (st : State num) :
  firstArgumentIsBuild args = false →
  ∃ new,
    output (finalState (executeCommandLine host args st))
    = (output st ++ Called (parseCommandLine_ args) :: new)%list
    ∧ Forall (fun e => buildDispatcherOnly e = false) new.
Proof.
  intros Hfirst. unfold executeCommandLine. rewrite Hfirst.
  unfold bind at 1. unfold call at 1, log at 1.
  match goal with
  | |- context [finalState (?k (appendOutput st ?es))] =>
      assert (Hk : logsOnly (fun e => buildDispatcherOnly e = false) k)
  end.
  { repeat first
      [ apply executeCommandLine_afterLocale_no_build
      | apply logsOnly_ret
      | apply logsOnly_exit
      | apply logsOnly_log; reflexivity
      | apply logsOnly_reportDiagnostic; intros ?; reflexivity
      | apply logsOnly_bind; [|intros ?]
      | match goal with
        | |- logsOnly _ (if ?b then _ else _) => destruct b
        end ]. }
  destruct (Hk (appendOutput st [Called (parseCommandLine_ args)])) as (new & Hout & Hall).
  exists new. split; [|done]. rewrite Hout. cbn. by rewrite <- app_assoc.
Qed.

Lemma withoutConfigFile_no_lookup (commandLine : ParsedCommandLine) :
  logsOnly (fun e => configLookup e = false)
           (executeCommandLine_withConfigFileName host commandLine None).
Proof.
  unfold executeCommandLine_withConfigFileName. cbn [Js.truthy].
  walk_log host.
Qed.

(** X18.  File names without a project: the configuration file is left
    alone.  When the command line names source files and no project, the run
    looks for no configuration file, probes no path and parses no
    configuration: whatever mode follows works from the options of the
    command line. *)
Theorem file_names_skip_configuration (args : list string) (st : State num) :
  reachesConfigResolution host args = true →
  Js.truthy (CompilerOptions.project (options (parseCommandLine host args))) = false →
  fileNames (parseCommandLine host args) ≠ [] →
  executeCommandLine host args st =
    executeCommandLine_withConfigFileName host (commandLineAfterLocale host args) None
      (appendOutput st (preamble host args))
  ∧ ∃ new,
      output (finalState (executeCommandLine host args st)) = (output st ++ new)%list
      ∧ Forall (fun e => configLookup e = false) new.
Proof.
  intros Hreach Hproject Hfiles.
  assert (Hrun : executeCommandLine host args st =
    executeCommandLine_withConfigFileName host (commandLineAfterLocale host args) None
      (appendOutput st (preamble host args))).
  { rewrite executeCommandLine_resolves by done.
    unfold bind at 1. unfold resolveConfigFileName.
    rewrite commandLineAfterLocale_options, Hproject, commandLineAfterLocale_fileNames.
    by destruct (fileNames (parseCommandLine host args)). }
  split; [done|]. rewrite Hrun.
  destruct (withoutConfigFile_no_lookup (commandLineAfterLocale host args)
              (appendOutput st (preamble host args))) as (new & Hout & Hall).
  exists (preamble host args ++ new)%list. split.
  - rewrite Hout. cbn. by rewrite <- app_assoc.
  - apply Forall_app. split; [|done].
    unfold preamble.
    destruct (Js.truthy (CompilerOptions.locale _));
      repeat (apply Forall_cons; split; [reflexivity|]); apply Forall_nil_2.
Qed.

End NeverDone.

(** ** What a whole run leaves alone *)

Section Frames.

Context {num : Type} `{!JsNumber num}.
Variable host : Host num.

#[global] Instance sameReporter_frame : Frame (@sameReporter num).
Proof.
  split.
  - by intros st.
  - intros st1 st2 st3 [H1 H2] [H3 H4]. split; congruence.
  - by intros st es.
  - by intros st perf.
Qed.

#[global] Instance sameFiles_frame : Frame (@sameFiles num).
Proof.
  split.
  - by intros st.
  - unfold sameFiles. intros st1 st2 st3 H1 H2. congruence.
  - by intros st es.
  - by intros st perf.
Qed.

Context (R : State num -> State num -> Prop) `{!Frame R}.

Lemma preserves_ret {A} (a : A) : preserves R (ret a).
Proof. intros st. apply frame_refl. Qed.

Lemma preserves_exit {A} (status : ExitStatus) : preserves R (@sys_exit num A status).
Proof. intros st. apply frame_refl. Qed.

Lemma preserves_read {A} (f : State num -> A) : preserves R (fun st => ret (f st) st).
Proof. intros st. apply frame_refl. Qed.

Lemma preserves_log (e : Event num) : preserves R (log e).
Proof. intros st. apply frame_log. Qed.

Lemma preserves_engineCall (c : Call num) : preserves R (engineCall host c).
Proof.
  intros st. eapply frame_trans; [apply frame_performance|].
  apply (frame_log (withPerformance st _) [Called c]).
Qed.

Lemma preserves_bind {A B} (m : M num A) (k : A -> M num B) :
  preserves R m → (∀ a, preserves R (k a)) → preserves R (bind m k).
Proof.
  intros Hm Hk st. unfold bind. specialize (Hm st).
  destruct (m st) as [a st1|status st1]; [|done].
  eapply frame_trans; [exact Hm|apply Hk].
Qed.

Lemma preserves_forEach {A} (xs : list A) (f : A -> M num unit) :
  (∀ x, preserves R (f x)) → preserves R (forEach xs f).
Proof.
  intros Hf. induction xs as [|x xs IH]; cbn.
  - apply preserves_ret.
  - apply preserves_bind; [apply Hf|intros _; apply IH].
Qed.

Lemma preserves_reportDiagnostic (d : Diagnostic) : preserves R (reportDiagnostic_ d).
Proof. intros st. apply (frame_log st [Reported (reportDiagnostic st) d]). Qed.

Lemma preserves_fileExists (path : string) : preserves R (sys_fileExists path).
Proof. intros st. apply (frame_log st [SysFileExists path]). Qed.

Lemma preserves_enableStatistics (options : CompilerOptions.t) :
  preserves R (enableStatistics options).
Proof.
  intros st. unfold enableStatistics. destruct (_ || _).
  - apply (frame_performance st).
  - apply frame_refl.
Qed.

Lemma preserves_reportStatistics (program : Program num) :
  preserves R (reportStatistics host program).
Proof.
  intros st. unfold reportStatistics. destruct (_ || _); [|apply frame_refl].
  unfold bind. rewrite reportStatistics_local_writes. cbn.
  eapply frame_trans; [apply frame_log|].
  apply (frame_performance (appendOutput st _)).
Qed.

End Frames.

(** Walks through a function of the driver for a relation that frames it;
    [special] deals with the steps that are particular to the relation. *)
Ltac walk_frame host special :=
  unfold executeCommandLine_afterLocale, resolveConfigFileName,
    executeCommandLine_withConfigFileName, performBuild, performCompilation,
    performIncrementalCompilation, createWatchOfConfigFile,
    createWatchOfFilesAndCompilerOptions, reportWatchModeWithoutSysSupport,
    writeConfigFile, printVersion, printHelp, sys_write, sys_directoryExists_, call;
  repeat first
    [ match goal with
      | |- Frame _ => apply _
      | |- ∀ _, preserves _ _ => intros ?
      end
    | apply preserves_ret
    | apply preserves_exit
    | apply preserves_log
    | apply (preserves_engineCall host)
    | apply preserves_fileExists
    | apply preserves_enableStatistics
    | apply (preserves_reportStatistics host)
    | apply preserves_reportDiagnostic
    | special
    | apply preserves_forEach
    | apply preserves_bind
    | match goal with
      | |- preserves _ (if ?b then _ else _) => destruct b
      | |- preserves _ get_reportDiagnostic => apply (preserves_read _ reportDiagnostic)
      | |- preserves _ (fun st => ret _ st) => apply preserves_read
      end ].

Section LeftAlone.

Context {num : Type} `{!JsNumber num}.
Variable host : Host num.


Lemma writeFile_keeps_reporter (path data : string) :
  preserves (@sameReporter num) (sys_writeFile path data).
Proof. by intros st. Qed.





End LeftAlone.

(** ** The reporter over a whole run *)

Section ReporterOverRun.

Context {num : Type} `{!JsNumber num}.
Variable host : Host num.

Lemma rebinds_of_preserves {A} (m : M num A) :
  preserves (@sameReporter num) m → rebindsAtMostOnce m.
Proof. intros Hm st. left. apply Hm. Qed.

Lemma rebinds_bind_before {A B} (m : M num A) (k : A -> M num B) :
  preserves (@sameReporter num) m → (∀ a, rebindsAtMostOnce (k a)) →
  rebindsAtMostOnce (bind m k).
Proof.
  intros Hm Hk st. unfold bind. specialize (Hm st).
  destruct (m st) as [a st1|status st1]; [|by left].
  destruct Hm as [Hr Hc]. cbn in Hr, Hc.
  destruct (Hk a st1) as [[? ?]|[? ?]]; [left|right]; split; congruence.
Qed.

Lemma rebinds_bind_after {A B} (m : M num A) (k : A -> M num B) :
  rebindsAtMostOnce m → (∀ a, preserves (@sameReporter num) (k a)) →
  rebindsAtMostOnce (bind m k).
Proof.
  intros Hm Hk st. unfold bind. specialize (Hm st).
  destruct (m st) as [a st1|status st1]; [|done].
  destruct (Hk a st1) as [Hr Hc]. cbn in Hm.
  destruct Hm as [[? ?]|[? ?]]; [left|right]; split; congruence.
Qed.

Lemma rebinds_updateReportDiagnostic (options : Options) :
  rebindsAtMostOnce (updateReportDiagnostic host options).
Proof.
  intros st. rewrite updateReportDiagnostic_rebound. cbn.
  unfold rebound, reboundReporter, sameReporter, reboundOnce.
  destruct (shouldBePretty host (Some options)); [right|left]; done.
Qed.

End ReporterOverRun.

(** Walks through a function of the driver, looking for the one place where
    the reporter is rebound. *)
Ltac walk_rebinds host :=
  unfold executeCommandLine_afterLocale, executeCommandLine_withConfigFileName,
    performBuild;
  repeat first
    [ match goal with
      | |- ∀ _, rebindsAtMostOnce _ => intros ?
      end
    | apply rebinds_of_preserves;
      solve [walk_frame host ltac:(apply writeFile_keeps_reporter)]
    | apply rebinds_bind_before;
      [solve [walk_frame host ltac:(apply writeFile_keeps_reporter)]|]
    | apply rebinds_bind_after;
      [apply rebinds_updateReportDiagnostic
      |intros ?; solve [walk_frame host ltac:(apply writeFile_keeps_reporter)]]
    | match goal with
      | |- rebindsAtMostOnce (if ?b then _ else _) => destruct b
      end ].

Section OneReporter.

Context {num : Type} `{!JsNumber num}.
Variable host : Host num.

Lemma performBuild_rebinds (args : list string) :
  rebindsAtMostOnce (performBuild host args).
Proof. walk_rebinds host. Qed.

Lemma afterLocale_rebinds (commandLine : ParsedCommandLine) :
  rebindsAtMostOnce (executeCommandLine_afterLocale host commandLine).
Proof. walk_rebinds host. Qed.

Lemma executeCommandLine_rebinds (args : list string) :
  rebindsAtMostOnce (executeCommandLine host args).
Proof.
  unfold executeCommandLine.
  destruct (firstArgumentIsBuild args); [apply performBuild_rebinds|].
  repeat first
    [ match goal with
      | |- ∀ _, rebindsAtMostOnce _ => intros ?
      end
    | apply afterLocale_rebinds
    | apply rebinds_of_preserves;
      solve [walk_frame host ltac:(apply writeFile_keeps_reporter)]
    | apply rebinds_bind_before;
      [solve [walk_frame host ltac:(apply writeFile_keeps_reporter)]|]
    | match goal with
      | |- rebindsAtMostOnce (if ?b then _ else _) => destruct b
      end ].
Qed.

(** X20.  One reporter at a time, rebound at most once.  Over a whole run,
    whatever the arguments, either the reporter bound at the end is the one
    bound at the start and no reporter was made, or exactly one reporter was
    made, a pretty one, and it is the one bound at the end.  So a run never
    goes from a pretty reporter to a plain one, and the reporter bound is
    always one that was made before. *)
Theorem reporter_rebound_at_most_once (args : list string) (st : State num) :
  let st' := finalState (executeCommandLine host args st) in
  (sameReporter st st' ∨ reboundOnce st st')
  ∧ (reporter_pretty (reportDiagnostic st) = true →
     reporter_pretty (reportDiagnostic st') = true)
  ∧ ((reporter_id (reportDiagnostic st) < reportersCreated st)%nat →
     (reporter_id (reportDiagnostic st') < reportersCreated st')%nat).
Proof.
  intros st'. pose proof (executeCommandLine_rebinds args st) as Hrun.
  fold st' in Hrun. split; [exact Hrun|].
  destruct Hrun as [[Hr Hc]|[Hr Hc]]; rewrite Hr, Hc; cbn; split; (done || lia).
Qed.

End OneReporter.

(** ** Writing the configuration file *)

Section WriteConfigFile.

Context {num : Type} `{!JsNumber num}.
Variable host : Host num.

(** X21.  [writeConfigFile] never overwrites.  It always returns; after it
    the configuration file exists; every other path is as it was; a file
    that was there keeps its text.  So a second [writeConfigFile], with
    whatever options, finds the file, reports that it is already defined, and
    leaves the files as the first one left them. *)
Theorem writeConfigFile_never_overwrites (options : CompilerOptions.t)
    (fileNames : list string) (st : State num) :
  let st1 := finalState (writeConfigFile host options fileNames st) in
  writeConfigFile host options fileNames st = Returned tt st1
  ∧ fileExistsIn (files st1) (initFile host) = true
  ∧ (∀ path, path ≠ initFile host → files st1 !! path = files st !! path)
  ∧ (∀ text, files st !! initFile host = Some text →
             files st1 !! initFile host = Some text)
  ∧ (files st !! initFile host = None →
     files st1 !! initFile host
     = Some (generateTSConfig host options fileNames (sys_newLine host)))
  ∧ ∀ options' fileNames',
      writeConfigFile host options' fileNames' st1 =
      Returned tt
        (appendOutput st1
           [SysFileExists (initFile host);
            Reported (reportDiagnostic st1)
              (createCompilerDiagnostic
                 A_tsconfig_json_file_is_already_defined_at_Colon_0 [initFile host])]).
Proof.
  intros st1.
  assert (Hrun : ∀ (o : CompilerOptions.t) (f : list string) (s : State num),
    writeConfigFile host o f s =
    if fileExistsIn (files s) (initFile host)
    then Returned tt
           (appendOutput s
              [SysFileExists (initFile host);
               Reported (reportDiagnostic s)
                 (createCompilerDiagnostic
                    A_tsconfig_json_file_is_already_defined_at_Colon_0 [initFile host])])
    else Returned tt
           {| reportDiagnostic := reportDiagnostic s;
              reportersCreated := reportersCreated s;
              files := <[initFile host := generateTSConfig host o f (sys_newLine host)]>
                         (files s);
              performance := performance s;
              output := (output s ++
                         [SysFileExists (initFile host);
                          SysWriteFile (initFile host)
                            (generateTSConfig host o f (sys_newLine host));
                          Reported (reportDiagnostic s)
                            (createCompilerDiagnostic
                               Successfully_created_a_tsconfig_json_file [])])%list |}).
  { intros o f s. unfold writeConfigFile. fold (initFile host).
    unfold bind at 1. unfold sys_fileExists, bind, log, ret.
    cbn [files appendOutput].
    destruct (fileExistsIn (files s) (initFile host)); finish_run. }
  assert (Hexists : fileExistsIn (files st1) (initFile host) = true).
  { subst st1. rewrite Hrun. unfold fileExistsIn.
    destruct (bool_decide (is_Some (files st !! initFile host))) eqn:Hthere; cbn.
    - done.
    - apply bool_decide_eq_true_2. rewrite lookup_insert_eq. eauto. }
  split; [|split; [exact Hexists|]].
  { subst st1. rewrite Hrun. by destruct (fileExistsIn (files st) (initFile host)). }
  split; [|split; [|split]].
  - intros path Hpath. subst st1. rewrite Hrun.
    destruct (fileExistsIn (files st) (initFile host)); cbn; [done|].
    by rewrite lookup_insert_ne.
  - intros text Htext. subst st1. rewrite Hrun.
    unfold fileExistsIn. rewrite bool_decide_eq_true_2 by (rewrite Htext; eauto).
    done.
  - intros Hnone. subst st1. rewrite Hrun.
    unfold fileExistsIn.
    rewrite bool_decide_eq_false_2 by (rewrite Hnone; intros [? [=]]).
    cbn. by rewrite lookup_insert_eq.
  - intros options' fileNames'. rewrite Hrun. by rewrite Hexists.
Qed.

End WriteConfigFile.

(** ** The build flag *)

Lemma minus_character (c : ascii) : nat_of_ascii c = Js.minus → c = "-"%char.
Proof.
  intros Hc. rewrite <- (ascii_nat_embedding c), Hc. reflexivity.
Qed.

(** X22.  The test on the first argument, spelled out: it holds exactly
    when there is a first argument, made of one minus sign or two followed by
    a name that is "build" or "b" once its letters A-Z are lowered.  So "-b",
    "--b", "-Build" pass, and an argument without a minus sign, with three of
    them, or with a longer or shorter name does not. *)
Theorem firstArgumentIsBuild_exactly (args : list string) :
  firstArgumentIsBuild args = true ↔
  ∃ arg0 rest name,
    args = arg0 :: rest
    ∧ (arg0 = "-" +:+ name ∨ arg0 = "--" +:+ name)
    ∧ (Js.toLowerCase name = "build" ∨ Js.toLowerCase name = "b").
Proof.
  split.
  - destruct args as [|arg0 rest]; [done|].
    unfold firstArgumentIsBuild. intros Htest.
    apply andb_true_iff in Htest as [Hminus Hword].
    apply bool_decide_eq_true in Hminus.
    destruct arg0 as [|c0 tail]; [done|].
    injection Hminus as Hc0. apply minus_character in Hc0. subst c0.
    assert (Hlower : ∀ name,
      String.eqb (Js.toLowerCase name) "build" || String.eqb (Js.toLowerCase name) "b" = true →
      Js.toLowerCase name = "build" ∨ Js.toLowerCase name = "b").
    { intros name Hname. apply orb_true_iff in Hname as [Hname|Hname];
        apply String.eqb_eq in Hname; eauto. }
    destruct (bool_decide (Js.charCodeAt (String "-" tail) 1 = Some Js.minus)) eqn:Hsecond.
    + apply bool_decide_eq_true in Hsecond.
      destruct tail as [|c1 name]; [done|].
      injection Hsecond as Hc1. apply minus_character in Hc1. subst c1.
      exists (String "-" (String "-" name)), rest, name.
      split; [done|]. split; [by right|]. by apply Hlower.
    + exists (String "-" tail), rest, tail.
      split; [done|]. split; [by left|]. by apply Hlower.
  - intros (arg0 & rest & name & -> & Harg & Hname).
    by apply (firstArgumentIsBuild_flag arg0 name rest).
Qed.

(** ** No failure without an account *)

Section Accounting.

Context {num : Type} `{!JsNumber num}.
Variable host : Host num.

Lemma explained_returns {A} (m : M num A) :
  (∀ st, exitStatus (m st) = None) → explained m.
Proof. intros Hm st status Hexit. by rewrite Hm in Hexit. Qed.

Lemma explained_exit_success {A} : explained (@sys_exit num A Success).
Proof. intros st status [= <-] Hstatus. done. Qed.

Lemma explained_of_announces {A} (m : M num A) : announces m → explained m.
Proof. intros Hm st status _ _. apply Hm. Qed.

Lemma explained_bind {A B} (m : M num A) (k : A -> M num B) :
  logsOnly (fun _ => True) m → explained m → (∀ a, explained (k a)) →
  explained (bind m k).
Proof.
  intros Hlog Hm Hk st status. unfold bind.
  specialize (Hlog st). specialize (Hm st).
  destruct (m st) as [a st1|status1 st1].
  - intros Hexit Hstatus.
    destruct Hlog as (new1 & Hout1 & _). cbn in Hout1.
    destruct (Hk a st1 status Hexit Hstatus) as (new2 & Hout2 & Hsome).
    exists (new1 ++ new2)%list. split.
    + by rewrite Hout2, Hout1, app_assoc.
    + apply Exists_app. by right.
  - intros Hexit Hstatus. apply (Hm status1); [done|]. cbn in Hexit. congruence.
Qed.

Lemma announces_bind {A B} (m : M num A) (k : A -> M num B) :
  announces m → (∀ a, logsOnly (fun _ => True) (k a)) → announces (bind m k).
Proof.
  intros Hm Hk st. unfold bind. specialize (Hm st).
  destruct (m st) as [a st1|status1 st1]; [|done].
  destruct Hm as (new1 & Hout1 & Hsome). cbn in Hout1.
  destruct (Hk a st1) as (new2 & Hout2 & _).
  exists (new1 ++ new2)%list. split.
  - by rewrite Hout2, Hout1, app_assoc.
  - apply Exists_app. by left.
Qed.

Lemma announces_log (e : Event num) : accountsFor e = true → announces (log e).
Proof. intros He st. exists [e]. split; [done|]. by constructor. Qed.

Lemma announces_engineCall (c : Call num) :
  accountsFor (Called c) = true → announces (engineCall host c).
Proof. intros He st. exists [Called c]. split; [done|]. by constructor. Qed.

Lemma announces_reportDiagnostic (d : Diagnostic) :
  announces (reportDiagnostic_ (num:=num) d).
Proof.
  intros st. exists [Reported (reportDiagnostic st) d]. split; [done|]. by constructor.
Qed.

Lemma announces_forEach (ds : list Diagnostic) :
  (0 <? List.length ds)%nat = true →
  announces (forEach ds (reportDiagnostic_ (num:=num))).
Proof.
  intros Hsome st. rewrite forEach_reportDiagnostic. cbn.
  destruct ds as [|d ds]; [done|].
  eexists. split; [reflexivity|]. by constructor.
Qed.

Lemma announces_forEach_nonempty (ds : list Diagnostic) :
  negb (List.length ds =? 0)%nat = true →
  announces (forEach ds (reportDiagnostic_ (num:=num))).
Proof.
  intros Hsome. apply announces_forEach. by destruct ds.
Qed.

End Accounting.

(** Finds the event that accounts for whatever follows. *)
Ltac announce host :=
  first
    [ apply announces_reportDiagnostic
    | apply (announces_engineCall host); reflexivity
    | apply announces_log; reflexivity
    | apply announces_forEach; assumption
    | apply announces_forEach_nonempty; assumption
    | apply announces_bind; [announce host | intros ?; solve [walk_log host]] ].

(** Walks through a function of the driver: every exit is [Success], or
    comes after an event that accounts for it. *)
Ltac walk_explained host :=
  unfold executeCommandLine_afterLocale, resolveConfigFileName,
    executeCommandLine_withConfigFileName, performBuild, performCompilation,
    performIncrementalCompilation, createWatchOfConfigFile,
    createWatchOfFilesAndCompilerOptions, reportWatchModeWithoutSysSupport,
    writeConfigFile, printVersion, printHelp, sys_write, sys_directoryExists_, call;
  repeat first
    [ match goal with
      | |- ∀ _, explained _ => intros ?
      end
    | apply explained_exit_success
    | apply explained_of_announces; solve [announce host]
    | apply explained_returns; intros ?;
      solve [ reflexivity
            | rewrite updateReportDiagnostic_rebound; reflexivity
            | match goal with
              | |- context [enableStatistics ?o ?s] =>
                  destruct (enableStatistics_returns o s) as (? & -> & _)
              | |- context [reportStatistics host ?p ?s] =>
                  destruct (reportStatistics_returns host p s) as (? & ->)
              end; reflexivity ]
    | apply explained_bind; [solve [walk_log host]| |]
    | match goal with
      | |- explained (if ?b then _ else _) => destruct b eqn:?
      end ].

Section NoSilentFailure.

Context {num : Type} `{!JsNumber num}.
Variable host : Host num.

Lemma performBuild_explained (args : list string) : explained (performBuild host args).
Proof. walk_explained host. Qed.

Lemma afterLocale_explained (commandLine : ParsedCommandLine) :
  explained (executeCommandLine_afterLocale host commandLine).
Proof. walk_explained host. Qed.

Lemma afterLocale_logs (commandLine : ParsedCommandLine) :
  logsOnly (fun _ => True) (executeCommandLine_afterLocale host commandLine).
Proof. walk_log host. Qed.

(** X23.  No failure without an account.  Whenever a run ends the process
    with a status other than [Success], the run has reported a diagnostic or
    has handed work to the compiler or to the solution builder, whose status
    it passes on: the driver never exits with a failure of its own making
    without saying why. *)
Theorem no_silent_failure (args : list string) (st : State num) (status : ExitStatus) :
  exitStatus (executeCommandLine host args st) = Some status →
  status ≠ Success →
  ∃ new,
    output (finalState (executeCommandLine host args st)) = (output st ++ new)%list
    ∧ Exists (fun e => accountsFor e = true) new.
Proof.
  revert st status. change (explained (executeCommandLine host args)).
  unfold executeCommandLine.
  destruct (firstArgumentIsBuild args); [apply performBuild_explained|].
  unfold call.
  repeat first
    [ match goal with
      | |- ∀ _, explained _ => intros ?
      end
    | apply afterLocale_explained
    | apply explained_of_announces; solve [announce host]
    | apply explained_returns; intros ?; solve [reflexivity]
    | apply explained_bind;
      [solve [repeat first
                [ apply logsOnly_ret
                | apply logsOnly_log; exact I
                | apply logsOnly_bind; [|intros ?]
                | match goal with
                  | |- logsOnly _ (if ?b then _ else _) => destruct b
                  end ]]| |]
    | match goal with
      | |- explained (if ?b then _ else _) => destruct b eqn:?
      end ].
Qed.

End NoSilentFailure.

(** ** Showing the configuration is a dry run *)

Section DryRun.

Context {num : Type} `{!JsNumber num}.
Variable host : Host num.

Lemma resolveConfigFileName_no_engine (commandLine : ParsedCommandLine) :
  logsOnly (fun e => engineWork e = false) (resolveConfigFileName host commandLine).
Proof. walk_log host. Qed.

(** X24.  With [showConfig] set, a run that gets as far as the
    configuration hands nothing to the compiler: no compiler host and no
    program are made, nothing is emitted, no incremental compilation and no
    watch is started, whatever the watch and incremental options say. *)
Theorem showConfig_never_compiles (args : list string) (st : State num) :
  reachesConfigResolution host args = true →
  CompilerOptions.showConfig (options (parseCommandLine host args)) = true →
  ∃ new,
    output (finalState (executeCommandLine host args st)) = (output st ++ new)%list
    ∧ Forall (fun e => engineWork e = false) new.
Proof.
  intros Hreach Hshow.
  rewrite executeCommandLine_resolves by done.
  set (commandLine := commandLineAfterLocale host args).
  assert (Hs : CompilerOptions.showConfig (options commandLine) = true).
  { unfold commandLine. by rewrite commandLineAfterLocale_options. }
  assert (Hrun : logsOnly (fun e => engineWork e = false)
    (bind (resolveConfigFileName host commandLine)
          (executeCommandLine_withConfigFileName host commandLine))).
  { apply logsOnly_bind; [apply resolveConfigFileName_no_engine|].
    intros configFileName. unfold executeCommandLine_withConfigFileName.
    rewrite !Hs. cbv iota. walk_log host. }
  destruct (Hrun (appendOutput st (preamble host args))) as (new & Hout & Hall).
  exists (preamble host args ++ new)%list. split.
  - rewrite Hout. cbn. by rewrite <- app_assoc.
  - apply Forall_app. split; [|done]. unfold preamble.
    destruct (Js.truthy (CompilerOptions.locale _));
      repeat (apply Forall_cons; split; [reflexivity|]); apply Forall_nil_2.
Qed.

End DryRun.

(** ** The further properties at work on the example hosts *)

Lemma statistic_lines_aligned_witness :
  Statistic.make "Files" "3" ∈ Example.twoStatistics
  ∧ String.length
      (statisticLine (Example.host false)
         (fst (statisticSizes Example.twoStatistics))
         (snd (statisticSizes Example.twoStatistics))
         (Statistic.make "Files" "3")) = 11%nat.
Proof.
  assert (Hin : Statistic.make "Files" "3" ∈ Example.twoStatistics)
    by (apply list_elem_of_here).
  split; [exact Hin|].
  rewrite (proj1 (statistic_lines_aligned (Example.host false) Example.twoStatistics
                    (Statistic.make "Files" "3") Hin)).
  reflexivity.
Defined.


Lemma command_line_errors_witness :
  firstArgumentIsBuild ["--bogus"; "--init"] = false
  ∧ CompilerOptions.build
      (options (parseCommandLine (Example.host false) ["--bogus"; "--init"])) = false
  ∧ errors (commandLineAfterLocale (Example.host false) ["--bogus"; "--init"]) ≠ []
  ∧ exitStatus (executeCommandLine (Example.host false) ["--bogus"; "--init"] Example.start)
    = Some DiagnosticsPresent_OutputsSkipped.
Proof.
  split; [reflexivity|]. split; [reflexivity|]. split; [discriminate|].
  rewrite (proj1 (command_line_errors (Example.host false) ["--bogus"; "--init"]
                    Example.start eq_refl eq_refl ltac:(discriminate))).
  reflexivity.
Defined.

Lemma version_exits_witness :
  passesErrorCheck (Example.host false) ["--version"; "--help"] = true
  ∧ CompilerOptions.init
      (options (parseCommandLine (Example.host false) ["--version"; "--help"])) = false
  ∧ CompilerOptions.version
      (options (parseCommandLine (Example.host false) ["--version"; "--help"])) = true
  ∧ output (finalState
              (executeCommandLine (Example.host false) ["--version"; "--help"]
                 Example.startEmpty))
    = [Called (parseCommandLine_ ["--version"; "--help"]); Called printVersion_].
Proof.
  split; [reflexivity|]. split; [reflexivity|]. split; [reflexivity|].
  rewrite (version_exits (Example.host false) ["--version"; "--help"] Example.startEmpty
             eq_refl eq_refl eq_refl).
  reflexivity.
Defined.

Lemma help_exits_witness :
  passesErrorCheck (Example.host false) ["--help"] = true
  ∧ CompilerOptions.init (options (parseCommandLine (Example.host false) ["--help"])) = false
  ∧ CompilerOptions.version
      (options (parseCommandLine (Example.host false) ["--help"])) = false
  ∧ CompilerOptions.help (options (parseCommandLine (Example.host false) ["--help"]))
    || CompilerOptions.all (options (parseCommandLine (Example.host false) ["--help"]))
    = true
  ∧ exitStatus (executeCommandLine (Example.host false) ["--help"] Example.start)
    = Some Success.
Proof.
  split; [reflexivity|]. split; [reflexivity|]. split; [reflexivity|].
  split; [reflexivity|].
  rewrite (proj1 (help_exits (Example.host false) ["--help"] Example.start
                    eq_refl eq_refl eq_refl eq_refl)).
  reflexivity.
Defined.

Lemma watch_mode_witness :
  reachesConfigResolution (MoreExamples.watching (Example.host false)) ["a.ts"] = true
  ∧ CompilerOptions.showConfig
      (options (parseCommandLine (MoreExamples.watching (Example.host false)) ["a.ts"]))
    = false
  ∧ resolveConfigFileName (MoreExamples.watching (Example.host false))
      (commandLineAfterLocale (MoreExamples.watching (Example.host false)) ["a.ts"])
      (appendOutput Example.start
         (preamble (MoreExamples.watching (Example.host false)) ["a.ts"]))
    = Returned None (MoreExamples.parsed ["a.ts"])
  ∧ isWatchSet (MoreExamples.watching (Example.host false))
      (options
         (effectiveConfiguration (MoreExamples.watching (Example.host false))
            (commandLineAfterLocale (MoreExamples.watching (Example.host false)) ["a.ts"])
            None)) = true
  ∧ exitStatus
      (executeCommandLine (MoreExamples.watching (Example.host false)) ["a.ts"]
         Example.start) = None.
Proof.
  split; [reflexivity|]. split; [reflexivity|]. split; [reflexivity|].
  split; [reflexivity|].
  apply (proj1 (watch_mode (MoreExamples.watching (Example.host false)) ["a.ts"]
                  Example.start (MoreExamples.parsed ["a.ts"]) None
                  eq_refl eq_refl eq_refl ltac:(discriminate) eq_refl)).
  reflexivity.
Defined.

Lemma compile_modes_witness :
  reachesConfigResolution (Example.host false) ["a.ts"] = true
  ∧ CompilerOptions.showConfig
      (options (parseCommandLine (Example.host false) ["a.ts"])) = false
  ∧ resolveConfigFileName (Example.host false)
      (commandLineAfterLocale (Example.host false) ["a.ts"])
      (appendOutput Example.start (preamble (Example.host false) ["a.ts"]))
    = Returned None (MoreExamples.parsed ["a.ts"])
  ∧ isWatchSet (Example.host false)
      (options
         (effectiveConfiguration (Example.host false)
            (commandLineAfterLocale (Example.host false) ["a.ts"]) None)) = false
  ∧ exitStatus (executeCommandLine (Example.host false) ["a.ts"] Example.start)
    = Some Success.
Proof.
  split; [reflexivity|]. split; [reflexivity|]. split; [reflexivity|].
  split; [reflexivity|].
  rewrite (proj2 (proj2 (compile_modes (Example.host false) ["a.ts"]
                           Example.start (MoreExamples.parsed ["a.ts"]) None
                           eq_refl eq_refl eq_refl ltac:(discriminate) eq_refl)
                    eq_refl)).
  reflexivity.
Defined.

Lemma build_errors_witness :
  ParsedBuildCommand.errors (parseBuildCommand (Example.host false) ["--bogus"; "proj"])
  ≠ []
  ∧ exitStatus (performBuild (Example.host false) ["--bogus"; "proj"] Example.start)
    = Some DiagnosticsPresent_OutputsSkipped.
Proof.
  split; [discriminate|].
  rewrite (build_errors (Example.host false) ["--bogus"; "proj"] Example.start
             ltac:(discriminate)).
  reflexivity.
Defined.

Lemma build_help_witness :
  ParsedBuildCommand.errors (parseBuildCommand (Example.host true) []) = []
  ∧ (BuildOptions.help
       (ParsedBuildCommand.buildOptions (parseBuildCommand (Example.host true) [])) = true
     ∨ ParsedBuildCommand.projects (parseBuildCommand (Example.host true) []) = [])
  ∧ exitStatus (performBuild (Example.host true) [] Example.start) = Some Success.
Proof.
  split; [reflexivity|]. split; [right; reflexivity|].
  rewrite (build_help (Example.host true) [] Example.start eq_refl (or_intror eq_refl)).
  reflexivity.
Defined.

Lemma build_status_witness :
  ParsedBuildCommand.errors (parseBuildCommand (Example.host false) ["proj"; "--clean"])
  = []
  ∧ BuildOptions.help
      (ParsedBuildCommand.buildOptions
         (parseBuildCommand (Example.host false) ["proj"; "--clean"])) = false
  ∧ ParsedBuildCommand.projects
      (parseBuildCommand (Example.host false) ["proj"; "--clean"]) ≠ []
  ∧ sys_getModifiedTime (Example.host false) = true
  ∧ sys_setModifiedTime (Example.host false) = true
  ∧ sys_deleteFile (Example.host false) = true
  ∧ BuildOptions.watch
      (ParsedBuildCommand.buildOptions
         (parseBuildCommand (Example.host false) ["proj"; "--clean"])) = false
  ∧ exitStatus (performBuild (Example.host false) ["proj"; "--clean"] Example.start)
    = Some Success.
Proof.
  repeat (split; [first [reflexivity | discriminate]|]).
  rewrite (proj1 (build_status (Example.host false) ["proj"; "--clean"] Example.start
                    eq_refl eq_refl ltac:(discriminate) eq_refl eq_refl
                    (fun _ => eq_refl) eq_refl)).
  reflexivity.
Defined.

Lemma build_watch_witness :
  ParsedBuildCommand.errors (parseBuildCommand (Example.host false) ["proj"; "--watch"])
  = []
  ∧ BuildOptions.help
      (ParsedBuildCommand.buildOptions
         (parseBuildCommand (Example.host false) ["proj"; "--watch"])) = false
  ∧ ParsedBuildCommand.projects
      (parseBuildCommand (Example.host false) ["proj"; "--watch"]) ≠ []
  ∧ sys_getModifiedTime (Example.host false) = true
  ∧ sys_setModifiedTime (Example.host false) = true
  ∧ BuildOptions.clean
      (ParsedBuildCommand.buildOptions
         (parseBuildCommand (Example.host false) ["proj"; "--watch"])) = false
  ∧ BuildOptions.watch
      (ParsedBuildCommand.buildOptions
         (parseBuildCommand (Example.host false) ["proj"; "--watch"])) = true
  ∧ exitStatus (performBuild (Example.host false) ["proj"; "--watch"] Example.start)
    = None.
Proof.
  repeat (split; [first [reflexivity | discriminate]|]).
  apply (proj1 (build_watch (Example.host false) ["proj"; "--watch"] Example.start
                  eq_refl eq_refl ltac:(discriminate) eq_refl eq_refl
                  ltac:(discriminate) eq_refl)).
  reflexivity.
Defined.

Lemma mode_resolver_never_builds_witness :
  firstArgumentIsBuild ["a.ts"; "-b"] = false
  ∧ ∃ new,
      output (finalState
                (executeCommandLine (Example.host false) ["a.ts"; "-b"] Example.start))
      = (output Example.start ++ Called (parseCommandLine_ ["a.ts"; "-b"]) :: new)%list
      ∧ Forall (fun e => buildDispatcherOnly e = false) new.
Proof.
  split; [reflexivity|].
  apply (mode_resolver_never_builds (Example.host false) ["a.ts"; "-b"] Example.start).
  reflexivity.
Defined.

Lemma file_names_skip_configuration_witness :
  reachesConfigResolution (Example.host false) ["a.ts"] = true
  ∧ Js.truthy (CompilerOptions.project
                 (options (parseCommandLine (Example.host false) ["a.ts"]))) = false
  ∧ fileNames (parseCommandLine (Example.host false) ["a.ts"]) ≠ []
  ∧ ∃ new,
      output (finalState (executeCommandLine (Example.host false) ["a.ts"] Example.start))
      = (output Example.start ++ new)%list
      ∧ Forall (fun e => configLookup e = false) new.
Proof.
  split; [reflexivity|]. split; [reflexivity|]. split; [discriminate|].
  apply (proj2 (file_names_skip_configuration (Example.host false) ["a.ts"] Example.start
                  eq_refl eq_refl ltac:(discriminate))).
Defined.

Lemma no_silent_failure_witness :
  exitStatus (executeCommandLine (Example.host false) ["-p"; "nowhere"] Example.start)
  = Some DiagnosticsPresent_OutputsSkipped
  ∧ DiagnosticsPresent_OutputsSkipped ≠ Success
  ∧ ∃ new,
      output (finalState
                (executeCommandLine (Example.host false) ["-p"; "nowhere"] Example.start))
      = (output Example.start ++ new)%list
      ∧ Exists (fun e => accountsFor e = true) new.
Proof.
  split; [reflexivity|]. split; [discriminate|].
  apply (no_silent_failure (Example.host false) ["-p"; "nowhere"] Example.start
           DiagnosticsPresent_OutputsSkipped eq_refl ltac:(discriminate)).
Defined.

Lemma showConfig_never_compiles_witness :
  reachesConfigResolution (Example.host false) ["a.ts"; "--showConfig"] = true
  ∧ CompilerOptions.showConfig
      (options (parseCommandLine (Example.host false) ["a.ts"; "--showConfig"])) = true
  ∧ ∃ new,
      output (finalState
                (executeCommandLine (Example.host false) ["a.ts"; "--showConfig"]
                   Example.start))
      = (output Example.start ++ new)%list
      ∧ Forall (fun e => engineWork e = false) new.
Proof.
  split; [reflexivity|]. split; [reflexivity|].
  apply (showConfig_never_compiles (Example.host false) ["a.ts"; "--showConfig"]
           Example.start eq_refl eq_refl).
Defined.
